(** * QRupay dashboard screen: shallow embedding and verified properties

    Source: [src/pages/Dashboard.tsx].  The component is embedded as
    - a record for the [MedicalProfile] interface and for the three pieces of
      component state ([useState] cells),
    - a log of the calls made to the external collaborators (router, backend
      client, toast hook, console, QR encoder, session provider),
    - a queue of awaited promises: every [async] function of the source is
      split at its [await] into the part that runs at the call and the part
      that runs when the promise settles,
    - a virtual-DOM tree for the JSX returned by the component. *)

From Stdlib Require Import String List Bool ZArith Lia Relations.
Import ListNotations.
Open Scope string_scope.

(** ** Data model *)

(** [interface MedicalProfile]; [string | null] is [option string]. *)
Record MedicalProfile : Type := {
  id : string;
  blood_group : option string;
  allergies : option string;
  chronic_conditions : option string;
  medications : option string;
  emergency_contact_name : string;
  emergency_contact_phone : string;
  emergency_contact_relation : option string;
  additional_notes : option string;
  qr_code_url : option string
}.

(** The same record with another [blood_group]. *)
Definition with_blood_group (bg : option string) (p : MedicalProfile) : MedicalProfile :=
  {| id := id p;
     blood_group := bg;
     allergies := allergies p;
     chronic_conditions := chronic_conditions p;
     medications := medications p;
     emergency_contact_name := emergency_contact_name p;
     emergency_contact_phone := emergency_contact_phone p;
     emergency_contact_relation := emergency_contact_relation p;
     additional_notes := additional_notes p;
     qr_code_url := qr_code_url p |}.

Module Auth.
(** The part of the session user the component reads: [user?.id] and
    [user?.email]. *)
Record User : Type := { id : string; email : option string }.
End Auth.

(** The error object of the backend client; only [code] is inspected. *)
Record PostgrestError : Type := { code : string; message : string }.

(** What [catch] can receive. *)
Inductive Thrown : Type :=
| PgError (e : PostgrestError)
| JsError (msg : string).

(** A settled promise. *)
Inductive Settled (A : Type) : Type :=
| Fulfilled (a : A)
| Rejected (reason : Thrown).
Arguments Fulfilled {A} a.
Arguments Rejected {A} reason.

(** [{ data, error }] as destructured from the awaited query. *)
Record QueryResponse : Type := {
  data : option MedicalProfile;
  error : option PostgrestError
}.

(** Options object handed to [QRCode.toDataURL]. *)
Record QRColor : Type := { dark : string; light : string }.
Record QRCodeToDataURLOptions : Type := { width : Z; margin : Z; color : QRColor }.

(** The three [useState] cells. *)
Record DashboardState : Type := {
  medicalProfile : option MedicalProfile;
  qrCodeDataUrl : string;
  loading : bool
}.

(** [useState(null)], [useState('')], [useState(true)]. *)
Definition initialState : DashboardState :=
  {| medicalProfile := None; qrCodeDataUrl := ""; loading := true |}.

(** ** Calls to the external collaborators *)

Inductive Effect : Type :=
| Navigate (to : string)
| SupabaseSingle (table columns column : string) (value : option string)
| ConsoleError (msg : string) (err : Thrown)
| Toast (title description variant : string)
| ToDataURL (text : string) (options : QRCodeToDataURLOptions)
| SignOut
| UnhandledRejection (reason : Thrown).   (* a rejection no handler catches *)

(** Promises the component is waiting on, each with the value it settles to. *)
Inductive Pending : Type :=
| AwaitSingle (r : Settled QueryResponse)
| AwaitToDataURL (r : Settled string)
| AwaitSignOut (r : Settled unit).

(** The environment of one mount: ambient values and the behaviour of the
    external functions, as they are at one moment. A statement about answers
    that change between two runs of the effect takes one [World] for each. *)
Record World : Type := {
  origin : string;                                   (* window.location.origin *)
  user : option Auth.User;                           (* useAuth().user *)
  single : option string -> Settled QueryResponse;   (* ...eq('user_id', v).single() *)
  toDataURL : string -> QRCodeToDataURLOptions -> Settled string;
  signOut : Settled unit
}.

Record Config : Type := {
  state : DashboardState;
  log : list Effect;          (* oldest first *)
  pending : list Pending
}.

Definition initialConfig : Config :=
  {| state := initialState; log := []; pending := [] |}.

Definition emit (e : Effect) (c : Config) : Config :=
  {| state := state c; log := log c ++ [e]; pending := pending c |}.

Definition await (p : Pending) (c : Config) : Config :=
  {| state := state c; log := log c; pending := pending c ++ [p] |}.

Definition with_pending (ps : list Pending) (c : Config) : Config :=
  {| state := state c; log := log c; pending := ps |}.

Definition setMedicalProfile (d : MedicalProfile) (c : Config) : Config :=
  {| state := {| medicalProfile := Some d;
                 qrCodeDataUrl := qrCodeDataUrl (state c);
                 loading := loading (state c) |};
     log := log c; pending := pending c |}.

Definition setQrCodeDataUrl (u : string) (c : Config) : Config :=
  {| state := {| medicalProfile := medicalProfile (state c);
                 qrCodeDataUrl := u;
                 loading := loading (state c) |};
     log := log c; pending := pending c |}.

Definition setLoading (b : bool) (c : Config) : Config :=
  {| state := {| medicalProfile := medicalProfile (state c);
                 qrCodeDataUrl := qrCodeDataUrl (state c);
                 loading := b |};
     log := log c; pending := pending c |}.

(** ** try / catch / finally *)

Inductive Outcome : Type :=
| Normal (c : Config)
| Throws (e : Thrown) (c : Config).

Definition try_catch (body : Outcome) (handler : Thrown -> Config -> Config) : Config :=
  match body with
  | Normal c => c
  | Throws e c => handler e c
  end.

(** JS truthiness of a string. *)
Definition truthy (s : string) : bool := negb (s =? "").

(** ** generateQRCode *)

Definition emergencyUrl (w : World) (profileId : string) : string :=
  origin w ++ "/emergency/" ++ profileId.

Definition qrOptions : QRCodeToDataURLOptions :=
  {| width := 256; margin := 2;
     color := {| dark := "#dc2626"; light := "#ffffff" |} |}.

(** Up to the [await]: the URL is built and the encoder is called. *)
Definition generateQRCode_call (w : World) (profileId : string) (c : Config) : Config :=
  let url := emergencyUrl w profileId in
  await (AwaitToDataURL (toDataURL w url qrOptions))
        (emit (ToDataURL url qrOptions) c).

(** After the [await]: the rest of the [try] block, or the [catch]. *)
Definition generateQRCode_resume (r : Settled string) (c : Config) : Config :=
  match r with
  | Fulfilled qrDataUrl => setQrCodeDataUrl qrDataUrl c
  | Rejected err => emit (ConsoleError "Error generating QR code:" err) c
  end.

(** The whole function, from call to completion. *)
Definition generateQRCode (w : World) (profileId : string) (c : Config) : Config :=
  let url := emergencyUrl w profileId in
  generateQRCode_resume (toDataURL w url qrOptions)
                        (emit (ToDataURL url qrOptions) c).

(** ** fetchMedicalProfile *)

(** Up to the [await]: the query is issued with [user?.id]. *)
Definition fetchMedicalProfile_call (w : World) (c : Config) : Config :=
  let uid := option_map Auth.id (user w) in
  await (AwaitSingle (single w uid))
        (emit (SupabaseSingle "medical_profiles" "*" "user_id" uid) c).

(** The two [if]s after the throw: [if (data) { ...; if (data.id) ... }]. *)
Definition fetchMedicalProfile_data (w : World) (d : option MedicalProfile)
    (c : Config) : Config :=
  match d with
  | Some d =>
      let c1 := setMedicalProfile d c in
      if truthy (id d) then generateQRCode_call w (id d) c1 else c1
  | None => c
  end.

(** The [try] block after the [await]. *)
Definition fetchMedicalProfile_try (w : World) (r : Settled QueryResponse)
    (c : Config) : Outcome :=
  match r with
  | Rejected err => Throws err c
  | Fulfilled resp =>
      match error resp with
      | Some e =>
          if negb (code e =? "PGRST116") then Throws (PgError e) c
          else Normal (fetchMedicalProfile_data w (data resp) c)
      | None => Normal (fetchMedicalProfile_data w (data resp) c)
      end
  end.

Definition fetchMedicalProfile_catch (err : Thrown) (c : Config) : Config :=
  emit (Toast "Error" "Failed to load medical profile" "destructive")
       (emit (ConsoleError "Error fetching medical profile:" err) c).

(** After the [await]: try, catch, finally. *)
Definition fetchMedicalProfile_resume (w : World) (r : Settled QueryResponse)
    (c : Config) : Config :=
  setLoading false
    (try_catch (fetchMedicalProfile_try w r c) fetchMedicalProfile_catch).

(** ** The effect and the event handlers *)

Definition useEffect_body (w : World) (c : Config) : Config :=
  match user w with
  | None => emit (Navigate "/auth") c
  | Some _ => fetchMedicalProfile_call w c
  end.

Definition handleSignOut_call (w : World) (c : Config) : Config :=
  await (AwaitSignOut (signOut w)) (emit SignOut c).

(** [handleSignOut] has no [try]: when [signOut] rejects, [navigate] is not
    reached and the rejection leaves the handler uncaught. *)
Definition handleSignOut_resume (r : Settled unit) (c : Config) : Config :=
  match r with
  | Fulfilled _ => emit (Navigate "/") c
  | Rejected err => emit (UnhandledRejection err) c
  end.

Definition handleGoBack (c : Config) : Config := emit (Navigate "/") c.

(** [onClick] values: the two named handlers and the inline
    [() => navigate(path)] arrows. *)
Inductive Action : Type :=
| HandleSignOut
| HandleGoBack
| NavigateTo (path : string).

Definition handle (w : World) (a : Action) (c : Config) : Config :=
  match a with
  | HandleSignOut => handleSignOut_call w c
  | HandleGoBack => handleGoBack c
  | NavigateTo path => emit (Navigate path) c
  end.

(** What runs when an awaited promise settles. *)
Definition resume (w : World) (p : Pending) (c : Config) : Config :=
  match p with
  | AwaitSingle r => fetchMedicalProfile_resume w r c
  | AwaitToDataURL r => generateQRCode_resume r c
  | AwaitSignOut r => handleSignOut_resume r c
  end.

(** ** The rendered tree *)

(** JSX values.  [className], [size] and [variant] are [""] when the attribute
    is not written. *)
#[warnings="-register-all"]
Inductive VNode : Type :=
| VNull                                   (* null or undefined child *)
| VText (s : string)
| VElem (tag className : string) (children : list VNode)
| VIcon (name className : string)
| VButton (onClick : Action) (variant size className : string)
          (children : list VNode)
| VQRCodeGenerator (profileId emergencyContactName emergencyContactPhone : string)
| VMedicalProfileSummary (profile : MedicalProfile).

(** [{user?.email}]. *)
Definition userEmail (w : World) : VNode :=
  match user w with
  | Some u => match Auth.email u with Some e => VText e | None => VNull end
  | None => VNull
  end.

Definition LoadingView : VNode :=
  VElem "div" "min-h-screen bg-background flex items-center justify-center"
    [VElem "div" "text-lg" [VText "Loading..."]].

Definition Header : VNode :=
  VElem "header" "bg-white shadow-sm border-b"
    [VElem "div" "max-w-7xl mx-auto px-4 sm:px-6 lg:px-8"
      [VElem "div" "flex justify-between items-center h-16"
        [VElem "div" "flex items-center gap-2"
           [VIcon "Heart" "w-8 h-8 text-medical-primary";
            VElem "h1" "text-xl font-bold text-medical-dark"
              [VElem "span" "text-primary" [VText "QR"]; VText "upay Dashboard"]];
         VElem "div" "flex gap-2 flex-row-reverse items-center"
           [VButton HandleSignOut "outline" "sm" ""
              [VIcon "LogOut" "w-4 h-4 mr-2"; VText "Sign Out"];
            VButton HandleGoBack "ghost" "sm" "text-red-500 hover:bg-white/20"
              [VIcon "ArrowLeft" "w-4 h-4 mr-2"; VText "Home"]]]]].

(** The two blocks shown for a profile in the overview card. *)
Definition EmergencyContactBlock (p : MedicalProfile) : VNode :=
  VElem "div" ""
    [VElem "p" "text-sm text-muted-foreground" [VText "Emergency Contact"];
     VElem "p" "font-medium" [VText (emergency_contact_name p)];
     VElem "p" "text-sm" [VText (emergency_contact_phone p)]].

(** [{medicalProfile.blood_group && (<div>...</div>)}]: a falsy left operand
    is itself the child. *)
Definition BloodGroupBlock (p : MedicalProfile) : VNode :=
  match blood_group p with
  | None => VNull
  | Some bg =>
      if truthy bg
      then VElem "div" ""
             [VElem "p" "text-sm text-muted-foreground" [VText "Blood Group"];
              VElem "p" "font-medium" [VText bg]]
      else VText bg
  end.

Definition ProfileOverview (w : World) (st : DashboardState) : VNode :=
  VElem "Card" ""
    [VElem "CardHeader" ""
       [VElem "CardTitle" "flex items-center gap-2"
          [VIcon "User" "w-5 h-5"; VText "Profile Overview"]];
     VElem "CardContent" "space-y-4"
       [VElem "div" ""
          [VElem "p" "text-sm text-muted-foreground" [VText "Email"];
           VElem "p" "font-medium" [userEmail w]];
        match medicalProfile st with
        | Some p =>
            VElem "div" "space-y-3" [EmergencyContactBlock p; BloodGroupBlock p]
        | None =>
            VElem "div" "text-center py-4"
              [VElem "p" "text-muted-foreground mb-4" [VText "No medical profile found"];
               VButton (NavigateTo "/profile/edit") "medical" "" ""
                 [VText "Create Medical Profile"]]
        end]].

Definition QRPlaceholder : VNode :=
  VElem "Card" ""
    [VElem "CardHeader" ""
       [VElem "CardTitle" "flex items-center gap-2"
          [VIcon "QrCode" "w-5 h-5"; VText "Emergency QR Code"]];
     VElem "CardContent" "text-center py-8"
       [VElem "p" "text-muted-foreground"
          [VText "Create a medical profile to generate your emergency QR code"]]].

(** [{medicalProfile?.id ? <QRCodeGenerator ... /> : <Card>...</Card>}]. *)
Definition QRSection (st : DashboardState) : VNode :=
  match medicalProfile st with
  | Some p =>
      if truthy (id p)
      then VQRCodeGenerator (id p) (emergency_contact_name p) (emergency_contact_phone p)
      else QRPlaceholder
  | None => QRPlaceholder
  end.

(** [{medicalProfile && (<div className="mt-8">...</div>)}]. *)
Definition SummarySection (st : DashboardState) : VNode :=
  match medicalProfile st with
  | Some p =>
      VElem "div" "mt-8"
        [VElem "h2" "text-2xl font-bold mb-6 flex items-center gap-2"
           [VIcon "Heart" "w-6 h-6 text-medical-primary";
            VText "Medical Profile Summary"];
         VMedicalProfileSummary p]
  | None => VNull
  end.

Definition Actions (st : DashboardState) : VNode :=
  VElem "div" "mt-8 flex flex-col sm:flex-row gap-4"
    [VButton (NavigateTo "/profile/edit") "medical" "lg" "flex items-center gap-2"
       [VIcon "FileText" "w-4 h-4";
        VText (match medicalProfile st with
               | Some _ => "Edit Medical Profile"
               | None => "Create Medical Profile"
               end)];
     match medicalProfile st with
     | Some p =>
         VButton (NavigateTo ("/emergency/" ++ id p)) "outline" "lg" ""
           [VText "Preview Emergency View"]
     | None => VNull
     end;
     VButton (NavigateTo "/medications") "secondary" "lg" "flex items-center gap-2"
       [VText "💊 Medication Reminders"]].

(** The value returned by the component. *)
Definition Dashboard (w : World) (st : DashboardState) : VNode :=
  if loading st then LoadingView
  else
    VElem "div" "min-h-screen bg-background"
      [Header;
       VElem "main" "max-w-7xl mx-auto px-4 sm:px-6 lg:px-8 py-8"
         [VElem "div" "grid md:grid-cols-2 gap-8"
            [ProfileOverview w st; QRSection st];
          SummarySection st;
          Actions st]].

(** ** Observations on a rendered tree *)

(** The tree is the markup of this component. An element of a component
    defined elsewhere ([VQRCodeGenerator], [VMedicalProfileSummary]) is a leaf
    that records the props it is given; the functions below see nothing of
    what such an element renders. *)

Definition concat_strings (l : list string) : string :=
  fold_right String.append "" l.

Fixpoint textContent (n : VNode) : string :=
  match n with
  | VText s => s
  | VElem _ _ cs => concat_strings (map textContent cs)
  | VButton _ _ _ _ cs => concat_strings (map textContent cs)
  | _ => ""
  end.

(** Every button of the component's own markup in document order: its
    handler and its label. *)
Fixpoint buttons (n : VNode) : list (Action * string) :=
  match n with
  | VElem _ _ cs => flat_map buttons cs
  | VButton a _ _ _ cs =>
      (a, concat_strings (map textContent cs)) :: flat_map buttons cs
  | _ => []
  end.

Definition Action_eqb (a b : Action) : bool :=
  match a, b with
  | HandleSignOut, HandleSignOut => true
  | HandleGoBack, HandleGoBack => true
  | NavigateTo p, NavigateTo q => p =? q
  | _, _ => false
  end.

(** The buttons whose click navigates to the profile-creation page. *)
Definition createProfileButtons (n : VNode) : list (Action * string) :=
  filter (fun b => Action_eqb (fst b) (NavigateTo "/profile/edit")) (buttons n).

(** The [QRCodeGenerator] element is part of the tree. *)
Fixpoint showsQR (n : VNode) : bool :=
  match n with
  | VQRCodeGenerator _ _ _ => true
  | VElem _ _ cs => existsb showsQR cs
  | VButton _ _ _ _ cs => existsb showsQR cs
  | _ => false
  end.

(** Profile content: the emergency-contact block, the blood-group block, the
    QR component or the profile summary. *)
Fixpoint showsProfileContent (n : VNode) : bool :=
  match n with
  | VQRCodeGenerator _ _ _ => true
  | VMedicalProfileSummary _ => true
  | VText s => (s =? "Emergency Contact") || (s =? "Blood Group")
  | VElem _ _ cs => existsb showsProfileContent cs
  | VButton _ _ _ _ cs => existsb showsProfileContent cs
  | _ => false
  end.

(** A [div] headed by the label "Blood Group". *)
Definition isBloodGroupBlock (n : VNode) : bool :=
  match n with
  | VElem tag _ (VElem ptag _ [VText label] :: _) =>
      (tag =? "div") && (ptag =? "p") && (label =? "Blood Group")
  | _ => false
  end.

(** The tree with the blood group taken out of view: the blood-group block
    becomes an empty child, so does an empty text (neither displays
    anything), and the record handed to the summary component loses its
    [blood_group]. Everything else is kept as it is. *)
Fixpoint hideBloodGroup (n : VNode) : VNode :=
  match n with
  | VText s => if truthy s then n else VNull
  | VElem tag cn cs =>
      if isBloodGroupBlock n then VNull else VElem tag cn (map hideBloodGroup cs)
  | VButton a v sz cn cs => VButton a v sz cn (map hideBloodGroup cs)
  | VMedicalProfileSummary p => VMedicalProfileSummary (with_blood_group None p)
  | _ => n
  end.

(** The [i]-th child of an element. *)
Definition childAt (i : nat) (n : VNode) : VNode :=
  match n with
  | VElem _ _ cs => nth i cs VNull
  | VButton _ _ _ _ cs => nth i cs VNull
  | _ => VNull
  end.

(** ** Observations on a log *)

Definition payloads (l : list Effect) : list string :=
  flat_map (fun e => match e with ToDataURL t _ => [t] | _ => [] end) l.

Definition encoderCalls (l : list Effect) : list (string * QRCodeToDataURLOptions) :=
  flat_map (fun e => match e with ToDataURL t o => [(t, o)] | _ => [] end) l.

Definition toasts (l : list Effect) : list Effect :=
  filter (fun e => match e with Toast _ _ _ => true | _ => false end) l.

Definition consoleErrors (l : list Effect) : list Effect :=
  filter (fun e => match e with ConsoleError _ _ => true | _ => false end) l.

Definition queries (l : list Effect) : list Effect :=
  filter (fun e => match e with SupabaseSingle _ _ _ _ => true | _ => false end) l.

(** What the person in front of the screen notices: navigations and toasts;
    console output, queries and encoder calls are not shown. *)
Definition userVisible (l : list Effect) : list Effect :=
  filter (fun e => match e with
                   | Navigate _ | Toast _ _ _ => true
                   | _ => false
                   end) l.

(** ** Running the component *)

(** One event of the component's life: the effect runs, an awaited promise
    settles (in any order), or a rendered button is clicked. *)
Inductive step (w : World) : Config -> Config -> Prop :=
| step_effect : forall c,
    step w c (useEffect_body w c)
| step_settle : forall c before p after,
    pending c = (before ++ p :: after)%list ->
    step w c (resume w p (with_pending (before ++ after)%list c))
| step_click : forall c a,
    In a (map fst (buttons (Dashboard w (state c)))) ->
    step w c (handle w a c).

Definition reachable (w : World) (c : Config) : Prop :=
  clos_refl_trans Config (step w) initialConfig c.

(** All promises pending now settle, oldest first; what they start is
    left pending. *)
Definition settle (w : World) (c : Config) : Config :=
  fold_left (fun acc p => resume w p acc) (pending c) (with_pending [] c).

(** One mount without user input: the effect runs once, the query settles,
    then the encoder call it may have started settles. *)
Definition mount (w : World) : Config :=
  settle w (settle w (useEffect_body w initialConfig)).

(** The state the screen is in when there is no profile to show. *)
Definition emptyProfileState : DashboardState :=
  {| medicalProfile := None; qrCodeDataUrl := ""; loading := false |}.

Definition loadedState (p : MedicalProfile) (qr : string) : DashboardState :=
  {| medicalProfile := Some p; qrCodeDataUrl := qr; loading := false |}.

(** [w] with the backend answering [r] to every query. *)
Definition with_single (r : Settled QueryResponse) (w : World) : World :=
  {| origin := origin w; user := user w; single := fun _ => r;
     toDataURL := toDataURL w; signOut := signOut w |}.

(** The fetch ends in the [catch]: the promise rejects, or it carries an
    error whose code is not the no-rows code. *)
Definition fetchFails (r : Settled QueryResponse) : bool :=
  match r with
  | Rejected _ => true
  | Fulfilled resp =>
      match error resp with
      | Some e => negb (code e =? "PGRST116")
      | None => false
      end
  end.

(** The configuration in which the query's continuation runs. *)
Definition afterQuery (uid : option string) : Config :=
  {| state := initialState;
     log := [SupabaseSingle "medical_profiles" "*" "user_id" uid];
     pending := [] |}.

Definition fetchToast : Effect :=
  Toast "Error" "Failed to load medical profile" "destructive".

(** What holds all along a mount without a session: the component state is
    the initial one, nothing is awaited, and the log holds only redirects. *)
Definition signedOutInvariant (c : Config) : Prop :=
  state c = initialState
  /\ pending c = []
  /\ Forall (fun e => e = Navigate "/auth") (log c).

(** [c] with the promises [ps] awaited before its own. *)
Definition prepend (ps : list Pending) (c : Config) : Config :=
  with_pending (ps ++ pending c) c.

(** ** Further definitions for whole-run properties *)

(** [user?.id], the value every query is issued with. *)
Definition currentUserId (w : World) : option string :=
  option_map Auth.id (user w).

(** The record the [try] block of [fetchMedicalProfile] gets to see: the
    [data] of the answer when the answer does not end in the [catch]. *)
Definition storedRecord (w : World) : option MedicalProfile :=
  match single w (currentUserId w) with
  | Fulfilled resp => if fetchFails (Fulfilled resp) then None else data resp
  | Rejected _ => None
  end.

(** One run of the effect from [c] under [w], with everything it starts
    settled. [w] holds the session and the answers at the time of this run;
    another run may see another [w]. *)
Definition effectRun (w : World) (c : Config) : Config :=
  settle w (settle w (useEffect_body w c)).

(** The tree holds an element of a component defined outside this file
    ([QRCodeGenerator], [MedicalProfileSummary]); what such an element
    renders is not part of the tree. *)
Fixpoint hasExternal (n : VNode) : bool :=
  match n with
  | VQRCodeGenerator _ _ _ => true
  | VMedicalProfileSummary _ => true
  | VElem _ _ cs => existsb hasExternal cs
  | VButton _ _ _ _ cs => existsb hasExternal cs
  | _ => false
  end.

(** What a call to a collaborator can be, in a run under [w]. *)
Definition allowedEffect (w : World) (e : Effect) : Prop :=
  match e with
  | Navigate t =>
      (t = "/auth" /\ user w = None)
      \/ t = "/" \/ t = "/profile/edit" \/ t = "/medications"
      \/ exists p, storedRecord w = Some p /\ t = "/emergency/" ++ id p
  | SupabaseSingle _ _ _ _ =>
      user w <> None
      /\ e = SupabaseSingle "medical_profiles" "*" "user_id" (currentUserId w)
  | ConsoleError msg err =>
      (msg = "Error fetching medical profile:"
       /\ fetchFails (single w (currentUserId w)) = true)
      \/ (msg = "Error generating QR code:"
          /\ exists p, storedRecord w = Some p
                       /\ toDataURL w (emergencyUrl w (id p)) qrOptions = Rejected err)
  | Toast _ _ _ =>
      e = fetchToast
      /\ user w <> None
      /\ fetchFails (single w (currentUserId w)) = true
  | ToDataURL t o =>
      o = qrOptions
      /\ exists p, storedRecord w = Some p /\ id p <> "" /\ t = emergencyUrl w (id p)
  | SignOut => True
  | UnhandledRejection err => signOut w = Rejected err
  end.

(** What an awaited promise can be. *)
Definition allowedPending (w : World) (p : Pending) : Prop :=
  match p with
  | AwaitSingle r => user w <> None /\ r = single w (currentUserId w)
  | AwaitToDataURL r =>
      exists p, storedRecord w = Some p /\ id p <> ""
                /\ r = toDataURL w (emergencyUrl w (id p)) qrOptions
  | AwaitSignOut r => r = signOut w
  end.

(** What the component state can hold. *)
Definition allowedState (w : World) (st : DashboardState) : Prop :=
  (forall p, medicalProfile st = Some p -> storedRecord w = Some p)
  /\ (qrCodeDataUrl st = ""
      \/ exists p, storedRecord w = Some p /\ id p <> ""
                   /\ toDataURL w (emergencyUrl w (id p)) qrOptions
                      = Fulfilled (qrCodeDataUrl st)).

Definition runInvariant (w : World) (c : Config) : Prop :=
  allowedState w (state c)
  /\ Forall (allowedEffect w) (log c)
  /\ Forall (allowedPending w) (pending c).

(** What holds as long as the loading flag is set: nothing is stored, only
    queries are awaited, and the log holds only redirects and queries. *)
Definition quietEffect (e : Effect) : bool :=
  match e with
  | Navigate t => t =? "/auth"
  | SupabaseSingle _ _ _ _ => true
  | _ => false
  end.

Definition isAwaitSingle (p : Pending) : bool :=
  match p with
  | AwaitSingle _ => true
  | _ => false
  end.

Definition loadingInvariant (c : Config) : Prop :=
  loading (state c) = true ->
  state c = initialState
  /\ forallb isAwaitSingle (pending c) = true
  /\ forallb quietEffect (log c) = true.

(** ** Sample inputs *)

Definition sampleUser : Auth.User :=
  {| Auth.id := "user-1"; Auth.email := Some "asha@example.org" |}.

Definition sampleProfile : MedicalProfile :=
  {| id := "abc123";
     blood_group := Some "O+";
     allergies := None;
     chronic_conditions := Some "asthma";
     medications := None;
     emergency_contact_name := "Ravi";
     emergency_contact_phone := "+91 98765 43210";
     emergency_contact_relation := None;
     additional_notes := None;
     qr_code_url := None |}.

Definition noRows : PostgrestError :=
  {| code := "PGRST116"; message := "no rows" |}.

Definition serverDown : PostgrestError :=
  {| code := "500"; message := "internal error" |}.

(** A signed-in user with a stored profile and a working encoder. *)
Definition sampleWorld : World :=
  {| origin := "https://qrupay.example";
     user := Some sampleUser;
     single := fun _ => Fulfilled {| data := Some sampleProfile; error := None |};
     toDataURL := fun t _ => Fulfilled ("data:image/png;base64," ++ t);
     signOut := Fulfilled tt |}.

(** The same, with an encoder that always fails. *)
Definition brokenEncoderWorld : World :=
  {| origin := origin sampleWorld;
     user := user sampleWorld;
     single := single sampleWorld;
     toDataURL := fun _ _ => Rejected (JsError "encode failed");
     signOut := signOut sampleWorld |}.

(** A signed-in user without a stored profile. *)
Definition noProfileWorld : World :=
  with_single (Fulfilled {| data := None; error := Some noRows |}) sampleWorld.

(** A signed-in user and a failing backend. *)
Definition serverDownWorld : World :=
  with_single (Fulfilled {| data := None; error := Some serverDown |}) sampleWorld.

(** Nobody is signed in. *)
Definition signedOutWorld : World :=
  {| origin := origin sampleWorld;
     user := None;
     single := single sampleWorld;
     toDataURL := toDataURL sampleWorld;
     signOut := signOut sampleWorld |}.

(** A stored record whose [id] is the empty string. *)
Definition emptyIdProfile : MedicalProfile :=
  {| id := "";
     blood_group := None;
     allergies := None;
     chronic_conditions := None;
     medications := None;
     emergency_contact_name := "Ravi";
     emergency_contact_phone := "+91 98765 43210";
     emergency_contact_relation := None;
     additional_notes := None;
     qr_code_url := None |}.

Definition emptyIdWorld : World :=
  with_single (Fulfilled {| data := Some emptyIdProfile; error := None |}) sampleWorld.

(** * Properties *)

(** ** Auxiliary facts *)

Lemma truthy_nonempty (s : string) : s <> "" -> truthy s = true.
Proof.
  intros Hs. unfold truthy. apply negb_true_iff. now apply String.eqb_neq.
Qed.

Lemma payloads_app (l1 l2 : list Effect) :
  payloads (l1 ++ l2) = (payloads l1 ++ payloads l2)%list.
Proof. unfold payloads. apply flat_map_app. Qed.

Lemma encoderCalls_app (l1 l2 : list Effect) :
  encoderCalls (l1 ++ l2) = (encoderCalls l1 ++ encoderCalls l2)%list.
Proof. unfold encoderCalls. apply flat_map_app. Qed.

(** With a session, a mount is the query, its continuation, and whatever
    that continuation leaves pending. *)
Lemma mount_signed_in (w : World) (u : Auth.User) :
  user w = Some u ->
  mount w =
  settle w (fetchMedicalProfile_resume w (single w (Some (Auth.id u)))
                                       (afterQuery (Some (Auth.id u)))).
Proof.
  intros Hu. unfold mount, useEffect_body, fetchMedicalProfile_call.
  rewrite Hu. reflexivity.
Qed.

(** The log written by the whole of [generateQRCode]. *)
Lemma generateQRCode_log (w : World) (pid : string) (c : Config) :
  exists tail,
    log (generateQRCode w pid c)
    = (log c ++ ToDataURL (emergencyUrl w pid) qrOptions :: tail)%list
    /\ payloads tail = [] /\ encoderCalls tail = [].
Proof.
  unfold generateQRCode.
  destruct (toDataURL w (emergencyUrl w pid) qrOptions) as [d | r]; simpl.
  - exists []. auto.
  - exists [ConsoleError "Error generating QR code:" r].
    rewrite <- app_assoc. auto.
Qed.

(** The log [generateQRCode] writes depends on the origin, the encoder, the
    id and the log so far, and on nothing else. *)
Lemma generateQRCode_log_agrees (w w' : World) (pid : string) (c c' : Config) :
  origin w = origin w' ->
  toDataURL w = toDataURL w' ->
  log c = log c' ->
  log (generateQRCode w pid c) = log (generateQRCode w' pid c').
Proof.
  intros Ho Ht Hl. unfold generateQRCode, emergencyUrl. rewrite Ho, Ht.
  destruct (toDataURL w' (origin w' ++ "/emergency/" ++ pid) qrOptions);
    cbn; now rewrite Hl.
Qed.

(** A mount that finds a profile with a non-empty id: the profile is stored,
    the loading flag is cleared and [generateQRCode] has run to its end. *)
Lemma mount_found (w : World) (u : Auth.User) (p : MedicalProfile) (e : option PostgrestError) :
  user w = Some u ->
  single w (Some (Auth.id u)) = Fulfilled {| data := Some p; error := e |} ->
  fetchFails (single w (Some (Auth.id u))) = false ->
  id p <> "" ->
  mount w =
  generateQRCode w (id p)
    (setLoading false (setMedicalProfile p (afterQuery (Some (Auth.id u))))).
Proof.
  intros Hu Hs Hf Hid. rewrite (mount_signed_in w u Hu).
  rewrite Hs in *.
  unfold fetchMedicalProfile_resume, fetchMedicalProfile_try,
    fetchMedicalProfile_data.
  cbn [error data fetchFails] in *.
  destruct e as [e |]; [rewrite Hf |];
    rewrite (truthy_nonempty _ Hid);
    unfold generateQRCode, generateQRCode_call, settle; simpl;
    destruct (toDataURL w (emergencyUrl w (id p)) qrOptions); reflexivity.
Qed.

(** What a settling promise runs does not look at the promises still
    awaited; it only adds to them. *)
Lemma resume_prepend (w : World) (p : Pending) (ps : list Pending) (c : Config) :
  resume w p (prepend ps c) = prepend ps (resume w p c).
Proof.
  destruct p as [r | r | r]; cbn [resume].
  - unfold fetchMedicalProfile_resume, fetchMedicalProfile_try,
      fetchMedicalProfile_data.
    destruct r as [resp | err]; [| reflexivity].
    destruct (error resp) as [e |];
      try destruct (negb (code e =? "PGRST116"));
      destruct (data resp) as [d |]; try reflexivity;
      destruct (truthy (id d)); try reflexivity;
      unfold prepend, generateQRCode_call; cbn; now rewrite app_assoc.
  - destruct r; reflexivity.
  - destruct r; reflexivity.
Qed.

Lemma prepend_nil (c : Config) : prepend [] c = c.
Proof. now destruct c. Qed.

(** Settling promises one after the other is a run of the step relation. *)
Lemma fold_resume_steps (w : World) (ps : list Pending) :
  forall acc : Config,
    clos_refl_trans Config (step w)
      (prepend ps acc) (fold_left (fun a p => resume w p a) ps acc).
Proof.
  induction ps as [| p rest IH]; intros acc.
  - rewrite prepend_nil. apply rt_refl.
  - apply rt_trans with (y := prepend rest (resume w p acc)); [| apply IH].
    apply rt_step. rewrite <- resume_prepend.
    exact (step_settle w (prepend (p :: rest) acc) [] p (rest ++ pending acc)%list
             eq_refl).
Qed.

Lemma settle_steps (w : World) (c : Config) :
  clos_refl_trans Config (step w) c (settle w c).
Proof.
  unfold settle.
  replace c with (prepend (pending c) (with_pending [] c)) at 1
    by (destruct c; unfold prepend; cbn; now rewrite app_nil_r).
  apply fold_resume_steps.
Qed.

(** A mount is a run of the step relation from the initial configuration. *)
Lemma mount_reachable (w : World) : reachable w (mount w).
Proof.
  unfold reachable, mount.
  apply rt_trans with (y := useEffect_body w initialConfig);
    [apply rt_step; constructor |].
  apply rt_trans with (y := settle w (useEffect_body w initialConfig));
    apply settle_steps.
Qed.

(** When a mount is over nothing is awaited any more, and the loading flag
    is cleared as soon as there is a session. *)
Lemma mount_quiescent (w : World) :
  pending (mount w) = []
  /\ (user w <> None -> loading (state (mount w)) = false).
Proof.
  destruct (user w) as [u |] eqn:Hu.
  - rewrite (mount_signed_in w u Hu).
    unfold fetchMedicalProfile_resume, fetchMedicalProfile_try,
      fetchMedicalProfile_data, settle.
    destruct (single w (Some (Auth.id u))) as [resp | err]; [| now split].
    destruct (error resp) as [e |];
      try destruct (negb (code e =? "PGRST116"));
      destruct (data resp) as [d |]; try (now split);
      destruct (truthy (id d)); try (now split);
      cbn; destruct (toDataURL w (emergencyUrl w (id d)) qrOptions); now split.
  - unfold mount, useEffect_body. rewrite Hu. split; [reflexivity | congruence].
Qed.

(** ** The claims *)

(** C1. For a signed-in user whose stored profile has a non-empty id, the
    only payload handed to the encoder during the mount is the origin followed
    by "/emergency/" and the id, whatever the other fields of the record are;
    the same holds for any call of [generateQRCode], from any configuration. *)
Theorem C1_qr_payload (w : World) (u : Auth.User) (p : MedicalProfile) :
  user w = Some u ->
  single w (Some (Auth.id u)) = Fulfilled {| data := Some p; error := None |} ->
  id p <> "" ->
  payloads (log (mount w)) = [origin w ++ "/emergency/" ++ id p]
  /\ forall c : Config,
       payloads (log (generateQRCode w (id p) c))
       = (payloads (log c) ++ [(origin w ++ "/emergency/" ++ id p)%string])%list.
Proof.
  intros Hu Hs Hid.
  assert (Hgen : forall c : Config,
             payloads (log (generateQRCode w (id p) c))
             = (payloads (log c) ++ [(origin w ++ "/emergency/" ++ id p)%string])%list).
  { intros c. destruct (generateQRCode_log w (id p) c) as (tl & -> & Htl & _).
    rewrite payloads_app. simpl. now rewrite Htl. }
  split; [| exact Hgen].
  rewrite (mount_found w u p None Hu Hs); [| now rewrite Hs | exact Hid].
  now rewrite Hgen.
Qed.

Lemma C1_qr_payload_abc123 :
  (user sampleWorld = Some sampleUser
   /\ single sampleWorld (Some (Auth.id sampleUser))
      = Fulfilled {| data := Some sampleProfile; error := None |}
   /\ id sampleProfile <> "")
  /\ payloads (log (mount sampleWorld)) = ["https://qrupay.example/emergency/abc123"].
Proof.
  split.
  - repeat split; try reflexivity. discriminate.
  - apply (C1_qr_payload sampleWorld sampleUser sampleProfile);
      [reflexivity | reflexivity | discriminate].
Defined.

(** A mount whose query brings neither a record nor an unexpected error. *)
Lemma mount_absent (w : World) (u : Auth.User) (e : option PostgrestError) :
  user w = Some u ->
  single w (Some (Auth.id u)) = Fulfilled {| data := None; error := e |} ->
  fetchFails (single w (Some (Auth.id u))) = false ->
  mount w = setLoading false (afterQuery (Some (Auth.id u))).
Proof.
  intros Hu Hs Hf. rewrite (mount_signed_in w u Hu). rewrite Hs in *.
  unfold fetchMedicalProfile_resume, fetchMedicalProfile_try,
    fetchMedicalProfile_data.
  cbn [error data fetchFails] in *.
  destruct e as [e |]; [rewrite Hf |]; reflexivity.
Qed.

(** A mount whose query fails: the [catch] runs, then the [finally]. *)
Lemma mount_failed (w : World) (u : Auth.User) :
  user w = Some u ->
  fetchFails (single w (Some (Auth.id u))) = true ->
  exists err : Thrown,
    mount w =
    setLoading false
      (fetchMedicalProfile_catch err (afterQuery (Some (Auth.id u)))).
Proof.
  intros Hu Hf. rewrite (mount_signed_in w u Hu).
  unfold fetchMedicalProfile_resume, fetchMedicalProfile_try.
  destruct (single w (Some (Auth.id u))) as [resp | err]; cbn [fetchFails] in Hf.
  - destruct (error resp) as [e |]; [| discriminate Hf].
    rewrite Hf. exists (PgError e). reflexivity.
  - exists err. reflexivity.
Qed.

(** C2. With a session, when the query answers with the no-rows error
    (code PGRST116) and no data, the [try] block ends normally, the mount
    shows no toast and logs no error, the profile stays [null], the screen is
    the one of the empty-profile state, and the whole outcome (state, log,
    pending promises) is the one of a query that brings no data and no error
    at all. *)
Theorem C2_no_rows_is_expected_absence (w : World) (u : Auth.User) (e : PostgrestError) :
  user w = Some u ->
  single w (Some (Auth.id u)) = Fulfilled {| data := None; error := Some e |} ->
  code e = "PGRST116" ->
  (forall c : Config,
      fetchMedicalProfile_try w (single w (Some (Auth.id u))) c = Normal c)
  /\ toasts (log (mount w)) = []
  /\ consoleErrors (log (mount w)) = []
  /\ medicalProfile (state (mount w)) = None
  /\ state (mount w) = emptyProfileState
  /\ Dashboard w (state (mount w)) = Dashboard w emptyProfileState
  /\ mount w = mount (with_single (Fulfilled {| data := None; error := None |}) w).
Proof.
  intros Hu Hs He.
  assert (Hf : fetchFails (single w (Some (Auth.id u))) = false).
  { rewrite Hs. cbn. now rewrite He. }
  rewrite (mount_absent w u (Some e) Hu Hs Hf).
  repeat split.
  - intros c. rewrite Hs. unfold fetchMedicalProfile_try. cbn [error data].
    rewrite He. reflexivity.
  - symmetry.
    apply (mount_absent (with_single (Fulfilled {| data := None; error := None |}) w)
                        u None); [exact Hu | reflexivity | reflexivity].
Qed.

Lemma C2_no_rows_sample :
  (user noProfileWorld = Some sampleUser
   /\ single noProfileWorld (Some (Auth.id sampleUser))
      = Fulfilled {| data := None; error := Some noRows |}
   /\ code noRows = "PGRST116")
  /\ toasts (log (mount noProfileWorld)) = []
  /\ consoleErrors (log (mount noProfileWorld)) = []
  /\ medicalProfile (state (mount noProfileWorld)) = None.
Proof.
  split.
  - repeat split; reflexivity.
  - pose proof (C2_no_rows_is_expected_absence noProfileWorld sampleUser noRows
                  eq_refl eq_refl eq_refl) as (_ & Ht & Hc & Hp & _).
    exact (conj Ht (conj Hc Hp)).
Defined.

(** C3. With a session, when the query fails with anything but the no-rows
    error, the mount shows exactly one toast, of the destructive variant,
    never calls the encoder, and has issued the query exactly once; no
    promise is left pending that could issue it again. *)
Theorem C3_failure_toasts_once (w : World) (u : Auth.User) :
  user w = Some u ->
  fetchFails (single w (Some (Auth.id u))) = true ->
  toasts (log (mount w))
  = [Toast "Error" "Failed to load medical profile" "destructive"]
  /\ encoderCalls (log (mount w)) = []
  /\ queries (log (mount w))
     = [SupabaseSingle "medical_profiles" "*" "user_id" (Some (Auth.id u))]
  /\ pending (mount w) = [].
Proof.
  intros Hu Hf. destruct (mount_failed w u Hu Hf) as (err & ->).
  repeat split.
Qed.

Lemma C3_failure_sample :
  (user serverDownWorld = Some sampleUser
   /\ fetchFails (single serverDownWorld (Some (Auth.id sampleUser))) = true)
  /\ toasts (log (mount serverDownWorld))
     = [Toast "Error" "Failed to load medical profile" "destructive"]
  /\ encoderCalls (log (mount serverDownWorld)) = [].
Proof.
  split.
  - split; reflexivity.
  - pose proof (C3_failure_toasts_once serverDownWorld sampleUser eq_refl eq_refl)
      as (Ht & He & _).
    exact (conj Ht He).
Defined.

(** C4, as stated, fails: after the mount of a signed-in user without a stored
    profile the screen is in the empty-profile state and carries two buttons
    that navigate to the profile-creation page, not one. *)
Lemma C4_two_create_buttons_sample :
  state (mount noProfileWorld) = emptyProfileState
  /\ map fst (createProfileButtons (Dashboard noProfileWorld (state (mount noProfileWorld))))
     = [NavigateTo "/profile/edit"; NavigateTo "/profile/edit"]
  /\ length (createProfileButtons (Dashboard noProfileWorld (state (mount noProfileWorld))))
     <> 1.
Proof.
  repeat split. vm_compute. discriminate.
Qed.

(** C4, amended. In the empty-profile state (no profile, loading over),
    whoever the user is, the screen carries exactly two buttons that navigate
    to the profile-creation page, both labelled "Create Medical Profile": the
    one of the overview card and the first one of the action bar. The buttons
    of the screen are, in order: sign out, home, these two, and medication
    reminders. *)
Theorem C4_empty_profile_create_buttons (w : World) (qr : string) :
  let screen :=
    Dashboard w {| medicalProfile := None; qrCodeDataUrl := qr; loading := false |} in
  createProfileButtons screen
  = [(NavigateTo "/profile/edit", "Create Medical Profile");
     (NavigateTo "/profile/edit", "Create Medical Profile")]
  /\ createProfileButtons (ProfileOverview w emptyProfileState)
     = [(NavigateTo "/profile/edit", "Create Medical Profile")]
  /\ createProfileButtons (Actions emptyProfileState)
     = [(NavigateTo "/profile/edit", "Create Medical Profile")]
  /\ map fst (buttons screen)
     = [HandleSignOut; HandleGoBack; NavigateTo "/profile/edit";
        NavigateTo "/profile/edit"; NavigateTo "/medications"].
Proof.
  cbv zeta. unfold Dashboard, ProfileOverview, userEmail. cbn [loading].
  destruct (user w) as [[uid [mail |]] |]; repeat split; reflexivity.
Qed.

(** [hideBloodGroup] forgets nothing but the blood group: two loaded screens
    that agree once the blood group is hidden come from records that agree on
    every other field. *)
Lemma hideBloodGroup_keeps_other_fields (w : World) (p q : MedicalProfile) (qr1 qr2 : string) :
  hideBloodGroup (Dashboard w (loadedState p qr1))
  = hideBloodGroup (Dashboard w (loadedState q qr2)) ->
  with_blood_group None p = with_blood_group None q.
Proof.
  intros H.
  apply (f_equal (fun t => childAt 1 (childAt 1 (childAt 1 t)))) in H.
  change (VMedicalProfileSummary (with_blood_group None p)
          = VMedicalProfileSummary (with_blood_group None q)) in H.
  injection H; intros; unfold with_blood_group; congruence.
Qed.

(** C5. Take two records that differ at most in [blood_group], in the same
    component state otherwise. Once the blood group is hidden the two rendered
    trees are equal, so every other field is displayed alike; the blocks that
    do not show the blood group are equal as they are; the derived URL and the
    payload [generateQRCode] hands to the encoder are equal; and two mounts
    whose stored records differ only there make the same calls in the same
    order. *)
Theorem C5_blood_group_noninterference
    (w : World) (p : MedicalProfile) (bg1 bg2 : option string)
    (qr : string) (l : bool) (c : Config) :
  let p1 := with_blood_group bg1 p in
  let p2 := with_blood_group bg2 p in
  let st1 := {| medicalProfile := Some p1; qrCodeDataUrl := qr; loading := l |} in
  let st2 := {| medicalProfile := Some p2; qrCodeDataUrl := qr; loading := l |} in
  hideBloodGroup (Dashboard w st1) = hideBloodGroup (Dashboard w st2)
  /\ EmergencyContactBlock p1 = EmergencyContactBlock p2
  /\ QRSection st1 = QRSection st2
  /\ Actions st1 = Actions st2
  /\ emergencyUrl w (id p1) = emergencyUrl w (id p2)
  /\ log (generateQRCode w (id p1) c) = log (generateQRCode w (id p2) c)
  /\ log (mount (with_single (Fulfilled {| data := Some p1; error := None |}) w))
     = log (mount (with_single (Fulfilled {| data := Some p2; error := None |}) w)).
Proof.
  cbv zeta. repeat split.
  - unfold Dashboard. destruct l; [reflexivity |].
    cbn [loading]. unfold ProfileOverview, SummarySection, BloodGroupBlock.
    cbn [medicalProfile blood_group with_blood_group].
    destruct bg1 as [b1 |], bg2 as [b2 |];
      try destruct (truthy b1) eqn:E1; try destruct (truthy b2) eqn:E2;
      cbn; rewrite ?E1, ?E2; reflexivity.
  - destruct (user w) as [u |] eqn:Hu.
    + destruct (String.eqb_spec (id p) "") as [Hid | Hid].
      * rewrite !(mount_signed_in (with_single _ w) u Hu).
        unfold fetchMedicalProfile_resume, fetchMedicalProfile_try,
          fetchMedicalProfile_data, truthy.
        cbn [with_single single error data id with_blood_group].
        rewrite Hid. reflexivity.
      * rewrite (mount_found (with_single _ w) u (with_blood_group bg1 p) None Hu eq_refl eq_refl Hid).
        rewrite (mount_found (with_single _ w) u (with_blood_group bg2 p) None Hu eq_refl eq_refl Hid).
        now apply generateQRCode_log_agrees.
    + unfold mount, useEffect_body, with_single. cbn [user]. now rewrite Hu.
Qed.

Lemma signedOutInvariant_step (w : World) (c c' : Config) :
  user w = None ->
  signedOutInvariant c -> step w c c' -> signedOutInvariant c'.
Proof.
  intros Hu (Hst & Hp & Hl) Hstep.
  destruct Hstep as [c | c before p after Hpend | c a Hin].
  - unfold useEffect_body. rewrite Hu. repeat split; cbn; auto.
    apply Forall_app. split; [exact Hl | repeat constructor].
  - rewrite Hp in Hpend. now destruct before.
  - rewrite Hst in Hin. contradiction Hin.
Qed.

Lemma signedOutInvariant_reachable (w : World) (c : Config) :
  user w = None -> reachable w c -> signedOutInvariant c.
Proof.
  intros Hu Hr. apply clos_rt_rtn1 in Hr.
  induction Hr as [| c1 c2 Hstep _ IH].
  - repeat split. constructor.
  - exact (signedOutInvariant_step w c1 c2 Hu IH Hstep).
Qed.

Lemma queries_redirects (l : list Effect) :
  Forall (fun e => e = Navigate "/auth") l -> queries l = [].
Proof.
  induction 1 as [| e l He _ IH]; [reflexivity |].
  subst e. exact IH.
Qed.

(** C6. Without a session the mount navigates to the sign-in page and does
    nothing else; and in every configuration reachable from the initial one,
    whatever the order of effect runs, settled promises and clicks, no query
    was issued, the component state is the initial one, the screen is the
    loading screen, and it shows no profile content and no button. *)
Theorem C6_signed_out_redirects (w : World) :
  user w = None ->
  log (mount w) = [Navigate "/auth"]
  /\ reachable w (mount w)
  /\ forall c : Config,
       reachable w c ->
       queries (log c) = []
       /\ state c = initialState
       /\ Dashboard w (state c) = LoadingView
       /\ showsProfileContent (Dashboard w (state c)) = false
       /\ buttons (Dashboard w (state c)) = [].
Proof.
  intros Hu. split; [| split; [apply mount_reachable |]].
  - unfold mount, useEffect_body. now rewrite Hu.
  - intros c Hc.
    destruct (signedOutInvariant_reachable w c Hu Hc) as (Hst & _ & Hl).
    rewrite Hst. repeat split. now apply queries_redirects.
Qed.

Lemma C6_signed_out_sample :
  user signedOutWorld = None
  /\ log (mount signedOutWorld) = [Navigate "/auth"]
  /\ showsProfileContent (Dashboard signedOutWorld (state (mount signedOutWorld))) = false.
Proof.
  split; [reflexivity |].
  pose proof (C6_signed_out_redirects signedOutWorld eq_refl) as (Hl & Hr & Hall).
  split; [exact Hl |].
  now destruct (Hall _ Hr) as (_ & _ & _ & Hs & _).
Defined.

(** On a loaded profile the screen does show profile content and the QR
    component. *)
Example loaded_screen_shows_profile :
  showsProfileContent (Dashboard sampleWorld (state (mount sampleWorld))) = true
  /\ showsQR (Dashboard sampleWorld (state (mount sampleWorld))) = true
  /\ qrCodeDataUrl (state (mount sampleWorld))
     = "data:image/png;base64,https://qrupay.example/emergency/abc123".
Proof. repeat split. Qed.



(** C8. Every run of [generateQRCode] calls the encoder exactly once, with
    the derived URL and the one options value of the source: width 256,
    margin 2, and a palette of two colours, dark "#dc2626" on light
    "#ffffff". The options are a constant: no field of any record enters
    them. *)
Theorem C8_encoder_options (w : World) (profileId : string) (c : Config) :
  encoderCalls (log (generateQRCode w profileId c))
  = (encoderCalls (log c) ++ [(emergencyUrl w profileId, qrOptions)])%list
  /\ encoderCalls (log (generateQRCode_call w profileId c))
     = (encoderCalls (log c) ++ [(emergencyUrl w profileId, qrOptions)])%list
  /\ width qrOptions = 256%Z
  /\ margin qrOptions = 2%Z
  /\ color qrOptions = {| dark := "#dc2626"; light := "#ffffff" |}.
Proof.
  repeat split.
  - destruct (generateQRCode_log w profileId c) as (tl & -> & _ & Htl).
    rewrite encoderCalls_app. simpl. now rewrite Htl.
  - unfold generateQRCode_call. cbn. now rewrite encoderCalls_app.
Qed.

(** C9. The payload is a function of the origin and the id alone: two calls
    of [generateQRCode] with the same id, one after the other, under the same
    origin, hand the encoder the same string, whatever the encoder answers and
    whatever the configuration the first call starts from. *)
Theorem C9_payload_deterministic (w1 w2 : World) (profileId : string) (c : Config) :
  origin w1 = origin w2 ->
  emergencyUrl w1 profileId = emergencyUrl w2 profileId
  /\ payloads (log (generateQRCode w2 profileId (generateQRCode w1 profileId c)))
     = (payloads (log c) ++ [emergencyUrl w1 profileId; emergencyUrl w1 profileId])%list.
Proof.
  intros Ho.
  assert (Hurl : emergencyUrl w1 profileId = emergencyUrl w2 profileId).
  { unfold emergencyUrl. now rewrite Ho. }
  split; [exact Hurl |].
  destruct (generateQRCode_log w2 profileId (generateQRCode w1 profileId c))
    as (tl2 & -> & Htl2 & _).
  destruct (generateQRCode_log w1 profileId c) as (tl1 & -> & Htl1 & _).
  rewrite !payloads_app. simpl.
  rewrite Htl1, Htl2, <- Hurl, <- app_assoc. reflexivity.
Qed.

Lemma C9_payload_sample :
  origin sampleWorld = origin brokenEncoderWorld
  /\ payloads (log (generateQRCode brokenEncoderWorld "abc123"
                      (generateQRCode sampleWorld "abc123" initialConfig)))
     = ["https://qrupay.example/emergency/abc123";
        "https://qrupay.example/emergency/abc123"].
Proof.
  split; [reflexivity |].
  apply (C9_payload_deterministic sampleWorld brokenEncoderWorld "abc123"
           initialConfig eq_refl).
Defined.

(** C10. With a session, when the query fails with anything but the no-rows
    error, the profile stays [null] and the QR data URL stays empty; the
    component state and the screen are those of the empty-profile state, the
    create-profile buttons included. Against the mount whose query answers
    "no rows", the log has two more entries, the console error and the toast,
    and of these only the toast is visible to the user. *)
Theorem C10_failure_leaves_empty_profile (w : World) (u : Auth.User) :
  user w = Some u ->
  fetchFails (single w (Some (Auth.id u))) = true ->
  let failed := mount w in
  let absent := mount (with_single (Fulfilled {| data := None; error := Some noRows |}) w) in
  medicalProfile (state failed) = None
  /\ qrCodeDataUrl (state failed) = ""
  /\ state failed = state absent
  /\ Dashboard w (state failed) = Dashboard w emptyProfileState
  /\ map snd (createProfileButtons (Dashboard w (state failed)))
     = ["Create Medical Profile"; "Create Medical Profile"]
  /\ userVisible (log failed) = (userVisible (log absent) ++ [fetchToast])%list
  /\ exists err : Thrown,
       log failed
       = (log absent ++ [ConsoleError "Error fetching medical profile:" err;
                         fetchToast])%list.
Proof.
  intros Hu Hf failed absent. subst failed absent.
  destruct (mount_failed w u Hu Hf) as (err & ->).
  rewrite (mount_absent (with_single _ w) u (Some noRows) Hu eq_refl eq_refl).
  repeat split.
  - unfold Dashboard, ProfileOverview, userEmail. cbn.
    destruct (user w) as [[uid [mail |]] |]; reflexivity.
  - exists err. reflexivity.
Qed.

Lemma C10_failure_sample :
  (user serverDownWorld = Some sampleUser
   /\ fetchFails (single serverDownWorld (Some (Auth.id sampleUser))) = true)
  /\ state (mount serverDownWorld) = state (mount noProfileWorld)
  /\ Dashboard serverDownWorld (state (mount serverDownWorld))
     = Dashboard serverDownWorld emptyProfileState.
Proof.
  split; [split; reflexivity |].
  pose proof (C10_failure_leaves_empty_profile serverDownWorld sampleUser
                eq_refl eq_refl) as (_ & _ & Hs & Hd & _).
  exact (conj Hs Hd).
Defined.

(** * Further properties of the component *)

(** ** Auxiliary facts on runs *)

Lemma truthy_true_nonempty (s : string) : truthy s = true -> s <> "".
Proof.
  unfold truthy. intros H. apply negb_true_iff in H. now apply String.eqb_neq.
Qed.

(** The handlers a click can reach, on any screen. *)
Lemma clickable_actions (w : World) (st : DashboardState) (a : Action) :
  In a (map fst (buttons (Dashboard w st))) ->
  loading st = false
  /\ (a = HandleSignOut \/ a = HandleGoBack
      \/ a = NavigateTo "/profile/edit" \/ a = NavigateTo "/medications"
      \/ exists p, medicalProfile st = Some p
                   /\ a = NavigateTo ("/emergency/" ++ id p)).
Proof.
  unfold Dashboard, ProfileOverview, QRSection, SummarySection, Actions,
    userEmail, BloodGroupBlock.
  destruct (loading st); [intros [] |].
  intros Hin. split; [reflexivity |].
  destruct (medicalProfile st) as [p |].
  - destruct (user w) as [[uid [mail |]] |];
      destruct (blood_group p) as [bg |]; try destruct (truthy bg);
      destruct (truthy (id p)); cbn in Hin;
      repeat (destruct Hin as [Hin | Hin]; [subst a; eauto 10 |]);
      contradiction.
  - destruct (user w) as [[uid [mail |]] |]; cbn in Hin;
      repeat (destruct Hin as [Hin | Hin]; [subst a; eauto 10 |]);
      contradiction.
Qed.

Lemma runInvariant_emit (w : World) (e : Effect) (c : Config) :
  allowedEffect w e -> runInvariant w c -> runInvariant w (emit e c).
Proof.
  intros He (Hst & Hl & Hp). repeat split; try apply Hst; [| exact Hp].
  cbn. apply Forall_app. split; [exact Hl | now constructor].
Qed.

Lemma runInvariant_await (w : World) (p : Pending) (c : Config) :
  allowedPending w p -> runInvariant w c -> runInvariant w (await p c).
Proof.
  intros Hq (Hst & Hl & Hp). repeat split; try apply Hst; [exact Hl |].
  cbn. apply Forall_app. split; [exact Hp | now constructor].
Qed.

Lemma runInvariant_setLoading (w : World) (b : bool) (c : Config) :
  runInvariant w c -> runInvariant w (setLoading b c).
Proof. intros (Hst & Hl & Hp). repeat split; try apply Hst; assumption. Qed.

Lemma runInvariant_generateQRCode_call (w : World) (d : MedicalProfile) (c : Config) :
  storedRecord w = Some d -> id d <> "" ->
  runInvariant w c -> runInvariant w (generateQRCode_call w (id d) c).
Proof.
  intros Hd Hid Hc. unfold generateQRCode_call.
  apply runInvariant_await; [cbn; eauto |].
  apply runInvariant_emit; [cbn; eauto | exact Hc].
Qed.

Lemma runInvariant_fetch_data (w : World) (resp : QueryResponse) (c : Config) :
  single w (currentUserId w) = Fulfilled resp ->
  fetchFails (Fulfilled resp) = false ->
  runInvariant w c ->
  runInvariant w (fetchMedicalProfile_data w (data resp) c).
Proof.
  intros Hs Hf Hc. unfold fetchMedicalProfile_data.
  destruct (data resp) as [d |] eqn:Hd; [| exact Hc].
  assert (Hrec : storedRecord w = Some d).
  { unfold storedRecord. now rewrite Hs, Hf. }
  assert (Hset : runInvariant w (setMedicalProfile d c)).
  { destruct Hc as ((_ & Hqr) & Hl & Hp). repeat split; try assumption.
    cbn. intros p [= <-]. exact Hrec. }
  destruct (truthy (id d)) eqn:Hid; [| exact Hset].
  apply runInvariant_generateQRCode_call;
    [exact Hrec | now apply truthy_true_nonempty | exact Hset].
Qed.

Lemma runInvariant_fetch_resume (w : World) (c : Config) :
  user w <> None ->
  runInvariant w c ->
  runInvariant w (fetchMedicalProfile_resume w (single w (currentUserId w)) c).
Proof.
  intros Hu Hc. unfold fetchMedicalProfile_resume. apply runInvariant_setLoading.
  assert (Hcatch : forall err,
             fetchFails (single w (currentUserId w)) = true ->
             runInvariant w (fetchMedicalProfile_catch err c)).
  { intros err Hf. unfold fetchMedicalProfile_catch.
    apply runInvariant_emit; [cbn; auto |].
    apply runInvariant_emit; [cbn; auto | exact Hc]. }
  unfold fetchMedicalProfile_try.
  destruct (single w (currentUserId w)) as [resp | err] eqn:Hs; cbn [try_catch].
  - destruct (error resp) as [e |] eqn:He.
    + destruct (negb (code e =? "PGRST116")) eqn:Hcode; cbn [try_catch].
      * apply Hcatch. cbn. now rewrite He.
      * apply (runInvariant_fetch_data w resp c Hs); [| exact Hc].
        cbn. now rewrite He.
    + apply (runInvariant_fetch_data w resp c Hs); [| exact Hc].
      cbn. now rewrite He.
  - now apply Hcatch.
Qed.

(** Every event of the component's life keeps the run invariant. *)
Lemma runInvariant_step (w : World) (c c' : Config) :
  runInvariant w c -> step w c c' -> runInvariant w c'.
Proof.
  intros Hc Hstep.
  destruct Hstep as [c | c before p after Hpend | c a Hin].
  - unfold useEffect_body. destruct (user w) as [u |] eqn:Hu.
    + unfold fetchMedicalProfile_call.
      assert (Hne : user w <> None) by (rewrite Hu; discriminate).
      change (option_map Auth.id (user w)) with (currentUserId w).
      apply runInvariant_await; [cbn; auto |].
      apply runInvariant_emit; [cbn; auto | exact Hc].
    + apply runInvariant_emit; [cbn; auto | exact Hc].
  - destruct Hc as (Hst & Hl & Hp). rewrite Hpend in Hp.
    apply Forall_app in Hp. destruct Hp as (Hbefore & Hrest).
    inversion Hrest as [| p0 l0 Hq Hafter]; subst p0 l0.
    assert (Hc0 : runInvariant w (with_pending (before ++ after) c)).
    { repeat split; try apply Hst; [exact Hl |].
      cbn. apply Forall_app. now split. }
    destruct p as [r | r | r]; cbn [resume].
    + destruct Hq as (Hu & ->). now apply runInvariant_fetch_resume.
    + destruct Hq as (d & Hd & Hid & ->). unfold generateQRCode_resume.
      destruct (toDataURL w (emergencyUrl w (id d)) qrOptions) as [url | err] eqn:Hr.
      * destruct Hc0 as ((Hmp & _) & Hl0 & Hp0).
        repeat split; try assumption. cbn. right. eauto.
      * apply runInvariant_emit; [cbn; eauto | exact Hc0].
    + cbn in Hq. subst r. unfold handleSignOut_resume.
      destruct (signOut w) eqn:Hso;
        (apply runInvariant_emit; [cbn; auto | exact Hc0]).
  - apply clickable_actions in Hin.
    destruct Hin as (_ & [-> | [-> | [-> | [-> | (p & Hp & ->)]]]]); cbn [handle].
    + unfold handleSignOut_call.
      apply runInvariant_await; [reflexivity |].
      apply runInvariant_emit; [exact I | exact Hc].
    + apply runInvariant_emit; [cbn; auto | exact Hc].
    + apply runInvariant_emit; [cbn; auto | exact Hc].
    + apply runInvariant_emit; [cbn; auto | exact Hc].
    + apply runInvariant_emit; [| exact Hc].
      cbn. do 4 right. exists p. split; [| reflexivity].
      now apply (proj1 (proj1 Hc)).
Qed.

Lemma runInvariant_reachable (w : World) (c : Config) :
  reachable w c -> runInvariant w c.
Proof.
  intros Hr. apply clos_rt_rtn1 in Hr.
  induction Hr as [| c1 c2 Hstep _ IH].
  - repeat split; cbn; auto. discriminate.
  - exact (runInvariant_step w c1 c2 IH Hstep).
Qed.

(** ** The mount with a session *)

(** X1. With a session, whatever the backend and the encoder answer, the mount
    ends with the loading flag cleared and nothing awaited; it has issued
    exactly one query, for the user's id, and no navigation; the screen is not
    the loading screen. *)
Theorem X1_session_mount_leaves_loading (w : World) (u : Auth.User) :
  user w = Some u ->
  loading (state (mount w)) = false
  /\ pending (mount w) = []
  /\ queries (log (mount w))
     = [SupabaseSingle "medical_profiles" "*" "user_id" (Some (Auth.id u))]
  /\ (forall t : string, ~ In (Navigate t) (log (mount w)))
  /\ Dashboard w (state (mount w)) <> LoadingView.
Proof.
  intros Hu.
  assert (Hcore :
    loading (state (mount w)) = false
    /\ pending (mount w) = []
    /\ queries (log (mount w))
       = [SupabaseSingle "medical_profiles" "*" "user_id" (Some (Auth.id u))]
    /\ (forall t : string, ~ In (Navigate t) (log (mount w)))).
  { rewrite (mount_signed_in w u Hu).
    unfold fetchMedicalProfile_resume, fetchMedicalProfile_try,
      fetchMedicalProfile_data, settle.
    destruct (single w (Some (Auth.id u))) as [resp | err].
    - destruct (error resp) as [e |];
        try destruct (negb (code e =? "PGRST116"));
        destruct (data resp) as [d |];
        try destruct (truthy (id d));
        cbn;
        try destruct (toDataURL w (emergencyUrl w (id d)) qrOptions);
        cbn; repeat split; intros t Hin;
        repeat (destruct Hin as [Hin | Hin]; [discriminate Hin |]);
        exact Hin.
    - cbn. repeat split. intros t Hin.
      repeat (destruct Hin as [Hin | Hin]; [discriminate Hin |]).
      exact Hin. }
  destruct Hcore as (Hl & Hp & Hq & Hn).
  split; [exact Hl |]. split; [exact Hp |]. split; [exact Hq |].
  split; [exact Hn |].
  unfold Dashboard. rewrite Hl. discriminate.
Qed.

Lemma X1_session_mount_sample :
  user brokenEncoderWorld = Some sampleUser
  /\ loading (state (mount brokenEncoderWorld)) = false
  /\ pending (mount brokenEncoderWorld) = [].
Proof.
  split; [reflexivity |].
  pose proof (X1_session_mount_leaves_loading brokenEncoderWorld sampleUser eq_refl)
    as (Hl & Hp & _).
  exact (conj Hl Hp).
Defined.

(** One event never brings the loading screen back and never drops a stored
    profile. *)
Lemma step_keeps_shown (w : World) (c c' : Config) :
  step w c c' ->
  (loading (state c) = false -> loading (state c') = false)
  /\ (medicalProfile (state c) <> None -> medicalProfile (state c') <> None).
Proof.
  intros Hstep. destruct Hstep as [c | c before p after Hpend | c a Hin].
  - unfold useEffect_body. now destruct (user w).
  - destruct p as [r | r | r]; cbn [resume].
    + unfold fetchMedicalProfile_resume, fetchMedicalProfile_try,
        fetchMedicalProfile_data.
      destruct r as [resp | err]; [| now split].
      destruct (error resp) as [e |];
        try destruct (negb (code e =? "PGRST116"));
        destruct (data resp) as [d |];
        try destruct (truthy (id d));
        cbn; split; auto; discriminate.
    + destruct r; now split.
    + destruct r; now split.
  - destruct a; now split.
Qed.

(** X2. Along any run, in whatever order effect runs, settled promises and
    clicks come: once the loading flag is cleared it stays cleared, and once a
    profile is stored the state never goes back to having none. So the loading
    screen and the "No medical profile found" card never come back. *)
Theorem X2_screen_never_goes_back (w : World) (c c' : Config) :
  clos_refl_trans Config (step w) c c' ->
  (loading (state c) = false -> loading (state c') = false)
  /\ (medicalProfile (state c) <> None -> medicalProfile (state c') <> None).
Proof.
  intros Hrun. apply clos_rt_rtn1 in Hrun.
  induction Hrun as [| c1 c2 Hstep _ (IHl & IHp)]; [now split |].
  destruct (step_keeps_shown w c1 c2 Hstep) as (Hl & Hp).
  split; auto.
Qed.

Lemma X2_screen_never_goes_back_sample :
  clos_refl_trans Config (step sampleWorld)
    (mount sampleWorld) (useEffect_body sampleWorld (mount sampleWorld))
  /\ loading (state (useEffect_body sampleWorld (mount sampleWorld))) = false
  /\ medicalProfile (state (useEffect_body sampleWorld (mount sampleWorld))) <> None.
Proof.
  assert (Hrun : clos_refl_trans Config (step sampleWorld)
                   (mount sampleWorld) (useEffect_body sampleWorld (mount sampleWorld)))
    by (apply rt_step; constructor).
  split; [exact Hrun |].
  destruct (X2_screen_never_goes_back sampleWorld _ _ Hrun) as (Hl & Hp).
  split; [apply Hl; reflexivity | apply Hp; discriminate].
Defined.

(** ** What a run can ever do *)

Lemma in_encoderCalls (l : list Effect) (t : string) (o : QRCodeToDataURLOptions) :
  In (t, o) (encoderCalls l) <-> In (ToDataURL t o) l.
Proof.
  unfold encoderCalls. rewrite in_flat_map. split.
  - intros (e & He & Hin). destruct e; cbn in Hin; try contradiction.
    destruct Hin as [[= <- <-] | []]. exact He.
  - intros Hin. exists (ToDataURL t o). split; [exact Hin | now left].
Qed.

(** A click on the preview button after a mount is part of a run. *)
Lemma preview_click_reachable :
  reachable sampleWorld
    (handle sampleWorld (NavigateTo "/emergency/abc123") (mount sampleWorld)).
Proof.
  apply rt_trans with (y := mount sampleWorld); [apply mount_reachable |].
  apply rt_step. apply step_click. cbn. auto 10.
Qed.

(** X4. In every run, every navigation the component asks for goes to one of
    "/auth", "/", "/profile/edit", "/medications", or to "/emergency/"
    followed by the id of the record the backend holds for the user; and it
    goes to "/auth" only when nobody is signed in. *)
Theorem X4_navigation_targets (w : World) (c : Config) (t : string) :
  reachable w c ->
  In (Navigate t) (log c) ->
  (t = "/auth" /\ user w = None)
  \/ t = "/" \/ t = "/profile/edit" \/ t = "/medications"
  \/ exists p : MedicalProfile,
       storedRecord w = Some p /\ t = "/emergency/" ++ id p.
Proof.
  intros Hr Hin.
  destruct (runInvariant_reachable w c Hr) as (_ & Hl & _).
  rewrite Forall_forall in Hl. exact (Hl _ Hin).
Qed.

Lemma X4_navigation_targets_sample :
  reachable sampleWorld
    (handle sampleWorld (NavigateTo "/emergency/abc123") (mount sampleWorld))
  /\ In (Navigate "/emergency/abc123")
     (log (handle sampleWorld (NavigateTo "/emergency/abc123") (mount sampleWorld)))
  /\ (("/emergency/abc123" = "/auth" /\ user sampleWorld = None)
      \/ "/emergency/abc123" = "/" \/ "/emergency/abc123" = "/profile/edit"
      \/ "/emergency/abc123" = "/medications"
      \/ exists p : MedicalProfile,
           storedRecord sampleWorld = Some p
           /\ "/emergency/abc123" = "/emergency/" ++ id p).
Proof.
  assert (Hin : In (Navigate "/emergency/abc123")
                  (log (handle sampleWorld (NavigateTo "/emergency/abc123")
                          (mount sampleWorld))))
    by (cbn; auto).
  split; [exact preview_click_reachable |]. split; [exact Hin |].
  exact (X4_navigation_targets sampleWorld _ _ preview_click_reachable Hin).
Defined.

(** X5. In every run, every call to the QR encoder carries the options of
    [qrOptions] and, as text, the origin followed by "/emergency/" and the
    id, not empty, of the record the backend holds for the user: nothing else
    is ever encoded. *)
Theorem X5_encoder_calls (w : World) (c : Config)
    (t : string) (o : QRCodeToDataURLOptions) :
  reachable w c ->
  In (t, o) (encoderCalls (log c)) ->
  o = qrOptions
  /\ exists p : MedicalProfile,
       storedRecord w = Some p
       /\ id p <> ""
       /\ t = origin w ++ "/emergency/" ++ id p.
Proof.
  intros Hr Hin. apply in_encoderCalls in Hin.
  destruct (runInvariant_reachable w c Hr) as (_ & Hl & _).
  rewrite Forall_forall in Hl. exact (Hl _ Hin).
Qed.

Lemma X5_encoder_calls_sample :
  reachable sampleWorld (mount sampleWorld)
  /\ In ("https://qrupay.example/emergency/abc123", qrOptions)
     (encoderCalls (log (mount sampleWorld)))
  /\ exists p : MedicalProfile,
       storedRecord sampleWorld = Some p
       /\ id p <> ""
       /\ "https://qrupay.example/emergency/abc123"
          = origin sampleWorld ++ "/emergency/" ++ id p.
Proof.
  assert (Hin : In ("https://qrupay.example/emergency/abc123", qrOptions)
                  (encoderCalls (log (mount sampleWorld))))
    by (cbn; auto).
  split; [apply mount_reachable |]. split; [exact Hin |].
  exact (proj2 (X5_encoder_calls sampleWorld _ _ _ (mount_reachable sampleWorld) Hin)).
Defined.

(** ** What one settled query does, from any state *)

Lemma toasts_app (l1 l2 : list Effect) :
  toasts (l1 ++ l2) = (toasts l1 ++ toasts l2)%list.
Proof. unfold toasts. apply filter_app. Qed.

Lemma consoleErrors_app (l1 l2 : list Effect) :
  consoleErrors (l1 ++ l2) = (consoleErrors l1 ++ consoleErrors l2)%list.
Proof. unfold consoleErrors. apply filter_app. Qed.

Lemma queries_app (l1 l2 : list Effect) :
  queries (l1 ++ l2) = (queries l1 ++ queries l2)%list.
Proof. unfold queries. apply filter_app. Qed.

(** The continuation of a query, by the kind of answer: it ends in the
    [catch], or it stores what [data] holds. The answer [r] and the
    configuration [c] are arbitrary: this is any query of any run. *)
Lemma fetchMedicalProfile_resume_cases
    (w : World) (r : Settled QueryResponse) (c : Config) :
  (fetchFails r = true
   /\ exists err : Thrown,
        fetchMedicalProfile_resume w r c
        = setLoading false (fetchMedicalProfile_catch err c))
  \/ (fetchFails r = false
      /\ exists resp : QueryResponse,
           r = Fulfilled resp
           /\ fetchMedicalProfile_resume w r c
              = setLoading false (fetchMedicalProfile_data w (data resp) c)).
Proof.
  unfold fetchMedicalProfile_resume, fetchMedicalProfile_try.
  destruct r as [resp | err]; cbn [fetchFails].
  - destruct (error resp) as [e |].
    + destruct (negb (code e =? "PGRST116")).
      * left. split; [reflexivity |]. now exists (PgError e).
      * right. split; [reflexivity |]. now exists resp.
    + right. split; [reflexivity |]. now exists resp.
  - left. split; [reflexivity |]. now exists err.
Qed.

(** X6. Whatever the answer of a query and whatever the state it arrives in:
    when the answer fails (a rejection, or an error other than "no rows") the
    continuation shows exactly one more toast, the destructive one, and does
    not call the encoder; when it does not fail there is no new toast and no
    new console entry, and a new encoder call, if any, is for the emergency
    URL of the record in this answer, whose id is not empty. So one answer
    never brings both a toast and an encoder call; across answers both can
    happen, as when a refetch fails after a successful load. The loading flag
    is cleared in every case. *)
Theorem X6_toast_or_encoder_per_query
    (w : World) (r : Settled QueryResponse) (c : Config) :
  let c' := fetchMedicalProfile_resume w r c in
  (fetchFails r = true ->
     toasts (log c') = (toasts (log c) ++ [fetchToast])%list
     /\ encoderCalls (log c') = encoderCalls (log c)
     /\ pending c' = pending c)
  /\ (fetchFails r = false ->
      toasts (log c') = toasts (log c)
      /\ consoleErrors (log c') = consoleErrors (log c)
      /\ (encoderCalls (log c') = encoderCalls (log c)
          \/ exists (resp : QueryResponse) (d : MedicalProfile),
               r = Fulfilled resp /\ data resp = Some d /\ id d <> ""
               /\ encoderCalls (log c')
                  = (encoderCalls (log c)
                     ++ [((origin w ++ "/emergency/" ++ id d)%string, qrOptions)])%list))
  /\ (toasts (log c') = toasts (log c)
      \/ encoderCalls (log c') = encoderCalls (log c))
  /\ loading (state c') = false.
Proof.
  cbv zeta.
  destruct (fetchMedicalProfile_resume_cases w r c)
    as [(Hf & err & ->) | (Hf & resp & -> & ->)].
  - rewrite Hf. unfold fetchMedicalProfile_catch. cbn.
    rewrite <- app_assoc, toasts_app, encoderCalls_app. cbn.
    rewrite app_nil_r.
    split; [auto |]. split; [discriminate |]. split; [now right | reflexivity].
  - rewrite Hf. unfold fetchMedicalProfile_data.
    split; [discriminate |].
    destruct (data resp) as [d |] eqn:Hd.
    + destruct (truthy (id d)) eqn:Hid.
      * unfold generateQRCode_call. cbn.
        rewrite toasts_app, consoleErrors_app, encoderCalls_app. cbn.
        rewrite !app_nil_r.
        split; [| split; [now left | reflexivity]].
        intros _. split; [reflexivity |]. split; [reflexivity |].
        right. exists resp, d.
        split; [reflexivity |]. split; [first [exact Hd | reflexivity] |].
        split; [now apply truthy_true_nonempty | reflexivity].
      * cbn. split; [auto | split; [now left | reflexivity]].
    + cbn. split; [auto | split; [now left | reflexivity]].
Qed.

Lemma X6_failed_refetch_sample :
  fetchFails (Fulfilled {| data := None; error := Some serverDown |}) = true
  /\ toasts (log (fetchMedicalProfile_resume sampleWorld
                    (Fulfilled {| data := None; error := Some serverDown |})
                    (mount sampleWorld)))
     = [fetchToast]
  /\ encoderCalls (log (fetchMedicalProfile_resume sampleWorld
                          (Fulfilled {| data := None; error := Some serverDown |})
                          (mount sampleWorld)))
     = [("https://qrupay.example/emergency/abc123", qrOptions)].
Proof.
  split; [reflexivity |].
  destruct (X6_toast_or_encoder_per_query sampleWorld
              (Fulfilled {| data := None; error := Some serverDown |})
              (mount sampleWorld)) as (Hfail & _).
  destruct (Hfail eq_refl) as (Ht & He & _).
  split; [now rewrite Ht | now rewrite He].
Defined.

(** X7. Whatever the answer of a query and whatever the state it arrives in:
    the continuation never touches the QR data URL; an answer that fails, or
    that brings no record, leaves the stored profile as it was, so that after
    loading the screen stays what it was and a profile shown before stays
    shown; an answer that brings a record stores that record in place of any
    other. *)
Theorem X7_query_keeps_or_replaces_profile
    (w : World) (r : Settled QueryResponse) (c : Config) :
  let c' := fetchMedicalProfile_resume w r c in
  qrCodeDataUrl (state c') = qrCodeDataUrl (state c)
  /\ (fetchFails r = true ->
      medicalProfile (state c') = medicalProfile (state c)
      /\ (loading (state c) = false -> state c' = state c))
  /\ (forall resp : QueryResponse,
        r = Fulfilled resp -> fetchFails r = false -> data resp = None ->
        medicalProfile (state c') = medicalProfile (state c)
        /\ (loading (state c) = false -> state c' = state c))
  /\ (forall (resp : QueryResponse) (d : MedicalProfile),
        r = Fulfilled resp -> fetchFails r = false -> data resp = Some d ->
        medicalProfile (state c') = Some d).
Proof.
  cbv zeta.
  assert (Hsame : forall st : DashboardState,
             loading st = false ->
             {| medicalProfile := medicalProfile st;
                qrCodeDataUrl := qrCodeDataUrl st;
                loading := false |} = st).
  { intros [mp qr l] Hl. cbn in Hl. now subst l. }
  destruct (fetchMedicalProfile_resume_cases w r c)
    as [(Hf & err & ->) | (Hf & resp & -> & ->)].
  - rewrite Hf. cbn.
    split; [reflexivity |]. split; [intros _; split; [reflexivity | apply Hsame] |].
    split; intros; discriminate.
  - rewrite Hf. unfold fetchMedicalProfile_data.
    destruct (data resp) as [d |] eqn:Hd.
    + destruct (truthy (id d)); cbn;
        (split; [reflexivity |]; split; [discriminate |];
         split; [intros resp' [= <-] _ Hnone; congruence |];
         intros resp' d' [= <-] _ Hsome; congruence).
    + cbn. split; [reflexivity |]. split; [discriminate |].
      split; [intros resp' _ _ _; split; [reflexivity | apply Hsame] |].
      intros resp' d' [= <-] _ Hsome; congruence.
Qed.

Lemma X7_failed_refetch_sample :
  (fetchFails (Fulfilled {| data := None; error := Some serverDown |}) = true
   /\ loading (state (mount sampleWorld)) = false)
  /\ state (fetchMedicalProfile_resume sampleWorld
              (Fulfilled {| data := None; error := Some serverDown |})
              (mount sampleWorld))
     = state (mount sampleWorld)
  /\ medicalProfile (state (mount sampleWorld)) = Some sampleProfile.
Proof.
  split; [split; reflexivity |].
  destruct (X7_query_keeps_or_replaces_profile sampleWorld
              (Fulfilled {| data := None; error := Some serverDown |})
              (mount sampleWorld)) as (_ & Hfail & _).
  destruct (Hfail eq_refl) as (_ & Hst).
  split; [exact (Hst eq_refl) | reflexivity].
Defined.

(** ** The loaded screen *)

(** X8. With a session, when the backend answers with a record whose id is
    not empty (and no error, or only the no-rows code), the mount stores that
    very record, clears the loading flag, shows no toast and calls the encoder
    once, for the record's emergency URL. When the encoder answers, its data
    URL is stored and the console stays silent. On the screen the QR component
    gets the record's id, contact name and contact phone, the summary
    component gets the whole record, and the overview card shows the record's
    emergency contact. *)
Theorem X8_successful_load
    (w : World) (u : Auth.User) (resp : QueryResponse) (p : MedicalProfile) :
  user w = Some u ->
  single w (Some (Auth.id u)) = Fulfilled resp ->
  data resp = Some p ->
  fetchFails (Fulfilled resp) = false ->
  id p <> "" ->
  let screen := Dashboard w (state (mount w)) in
  medicalProfile (state (mount w)) = Some p
  /\ loading (state (mount w)) = false
  /\ toasts (log (mount w)) = []
  /\ encoderCalls (log (mount w)) = [(emergencyUrl w (id p), qrOptions)]
  /\ (forall d : string,
        toDataURL w (emergencyUrl w (id p)) qrOptions = Fulfilled d ->
        qrCodeDataUrl (state (mount w)) = d /\ consoleErrors (log (mount w)) = [])
  /\ childAt 1 (childAt 0 (childAt 1 screen))
     = VQRCodeGenerator (id p) (emergency_contact_name p) (emergency_contact_phone p)
  /\ childAt 1 (childAt 1 (childAt 1 screen)) = VMedicalProfileSummary p
  /\ childAt 0 (childAt 1 (childAt 1 (childAt 0 (childAt 0 (childAt 1 screen)))))
     = EmergencyContactBlock p.
Proof.
  intros Hu Hs Hd Hf Hid screen. subst screen.
  destruct resp as [dat err]. cbn in Hd. subst dat.
  rewrite (mount_found w u p err Hu Hs); [| now rewrite Hs | exact Hid].
  unfold generateQRCode, Dashboard, QRSection.
  destruct (toDataURL w (emergencyUrl w (id p)) qrOptions) as [d | r] eqn:Hr;
    cbn; rewrite (truthy_nonempty _ Hid); repeat split;
    try discriminate; congruence.
Qed.

Lemma X8_successful_load_sample :
  (user sampleWorld = Some sampleUser
   /\ single sampleWorld (Some (Auth.id sampleUser))
      = Fulfilled {| data := Some sampleProfile; error := None |}
   /\ id sampleProfile <> "")
  /\ medicalProfile (state (mount sampleWorld)) = Some sampleProfile
  /\ encoderCalls (log (mount sampleWorld))
     = [(emergencyUrl sampleWorld "abc123", qrOptions)].
Proof.
  split; [repeat split; discriminate |].
  pose proof (X8_successful_load sampleWorld sampleUser
                {| data := Some sampleProfile; error := None |} sampleProfile
                eq_refl eq_refl eq_refl eq_refl) as H.
  assert (Hid : id sampleProfile <> "") by discriminate.
  destruct (H Hid) as (Hmp & _ & _ & Henc & _).
  exact (conj Hmp Henc).
Defined.

(** X9. With a session, when the backend answers with a record whose id is
    the empty string, the record is stored all the same, but the encoder is
    never called and the QR card is the placeholder, not the QR component;
    the summary still gets the record, and the "Preview Emergency View" button
    navigates to "/emergency/" with nothing after it. *)
Theorem X9_record_without_id
    (w : World) (u : Auth.User) (resp : QueryResponse) (p : MedicalProfile) :
  user w = Some u ->
  single w (Some (Auth.id u)) = Fulfilled resp ->
  data resp = Some p ->
  fetchFails (Fulfilled resp) = false ->
  id p = "" ->
  let screen := Dashboard w (state (mount w)) in
  state (mount w) = loadedState p ""
  /\ log (mount w)
     = [SupabaseSingle "medical_profiles" "*" "user_id" (Some (Auth.id u))]
  /\ childAt 1 (childAt 0 (childAt 1 screen)) = QRPlaceholder
  /\ showsQR screen = false
  /\ childAt 1 (childAt 1 (childAt 1 screen)) = VMedicalProfileSummary p
  /\ In (NavigateTo "/emergency/", "Preview Emergency View") (buttons screen).
Proof.
  intros Hu Hs Hd Hf Hid screen. subst screen.
  assert (Hm : mount w
               = setLoading false
                   (setMedicalProfile p (afterQuery (Some (Auth.id u))))).
  { rewrite (mount_signed_in w u Hu), Hs.
    unfold fetchMedicalProfile_resume, fetchMedicalProfile_try,
      fetchMedicalProfile_data, truthy.
    cbn [fetchFails] in Hf. rewrite Hd, Hid.
    destruct (error resp) as [e |]; [rewrite Hf |]; reflexivity. }
  rewrite Hm.
  unfold Dashboard, ProfileOverview, QRSection, SummarySection, Actions,
    userEmail, BloodGroupBlock, truthy.
  cbn [state setLoading setMedicalProfile afterQuery loading medicalProfile
       qrCodeDataUrl log].
  rewrite Hid.
  destruct (user w) as [[uid [mail |]] |];
    destruct (blood_group p) as [bg |]; try destruct (bg =? "");
    cbn; repeat split; auto 10.
Qed.

Lemma X9_record_without_id_sample :
  (user emptyIdWorld = Some sampleUser
   /\ single emptyIdWorld (Some (Auth.id sampleUser))
      = Fulfilled {| data := Some emptyIdProfile; error := None |}
   /\ id emptyIdProfile = "")
  /\ encoderCalls (log (mount emptyIdWorld)) = []
  /\ showsQR (Dashboard emptyIdWorld (state (mount emptyIdWorld))) = false
  /\ In (NavigateTo "/emergency/", "Preview Emergency View")
        (buttons (Dashboard emptyIdWorld (state (mount emptyIdWorld)))).
Proof.
  split; [repeat split |].
  destruct (X9_record_without_id emptyIdWorld sampleUser
              {| data := Some emptyIdProfile; error := None |} emptyIdProfile
              eq_refl eq_refl eq_refl eq_refl eq_refl)
    as (_ & Hl & _ & Hq & _ & Hb).
  split; [now rewrite Hl |]. exact (conj Hq Hb).
Defined.

(** X10. With a stored profile and loading over, the markup of the component
    itself carries these buttons: the header "Sign Out" and "Home"; the
    overview card none; the action bar, in this order, "Edit Medical Profile"
    (to "/profile/edit"), "Preview Emergency View" (to "/emergency/" followed
    by the id) and the medication reminders (to "/medications"). None of these
    three parts holds an element of an outside component, so the lists are
    complete for them; what [QRCodeGenerator] and [MedicalProfileSummary]
    render is not counted. The preview target, put after the origin, is the
    text [generateQRCode] encodes for the record: the QR code and the preview
    button lead to the same page. *)
Theorem X10_loaded_markup_buttons
    (w : World) (p : MedicalProfile) (qr : string) (c : Config) :
  let st := loadedState p qr in
  buttons Header = [(HandleSignOut, "Sign Out"); (HandleGoBack, "Home")]
  /\ buttons (ProfileOverview w st) = []
  /\ buttons (Actions st)
     = [(NavigateTo "/profile/edit", "Edit Medical Profile");
        (NavigateTo ("/emergency/" ++ id p), "Preview Emergency View");
        (NavigateTo "/medications", "💊 Medication Reminders")]
  /\ hasExternal Header = false
  /\ hasExternal (ProfileOverview w st) = false
  /\ hasExternal (Actions st) = false
  /\ (forall t : string,
        In (NavigateTo t, "Preview Emergency View") (buttons (Actions st)) ->
        payloads (log (generateQRCode w (id p) c))
        = (payloads (log c) ++ [(origin w ++ t)%string])%list).
Proof.
  cbv zeta.
  assert (Hov : buttons (ProfileOverview w (loadedState p qr)) = []
                /\ hasExternal (ProfileOverview w (loadedState p qr)) = false).
  { unfold ProfileOverview, loadedState, userEmail, BloodGroupBlock.
    cbn [medicalProfile].
    destruct (user w) as [[uid [mail |]] |];
      destruct (blood_group p) as [bg |]; try destruct (truthy bg);
      now split. }
  destruct Hov as (Hob & Hoe).
  split; [reflexivity |]. split; [exact Hob |]. split; [reflexivity |].
  split; [reflexivity |]. split; [exact Hoe |]. split; [reflexivity |].
  intros t Hin.
  assert (Ht : t = "/emergency/" ++ id p).
  { cbn in Hin.
    repeat (destruct Hin as [Hin | Hin]; [try discriminate Hin |]);
      [now injection Hin | contradiction]. }
  subst t.
  destruct (generateQRCode_log w (id p) c) as (tl & -> & Htl & _).
  rewrite payloads_app. simpl. now rewrite Htl.
Qed.

Lemma X10_loaded_markup_buttons_sample :
  In (NavigateTo "/emergency/abc123", "Preview Emergency View")
     (buttons (Actions (loadedState sampleProfile "")))
  /\ payloads (log (generateQRCode sampleWorld "abc123" initialConfig))
     = ["https://qrupay.example/emergency/abc123"].
Proof.
  assert (Hin : In (NavigateTo "/emergency/abc123", "Preview Emergency View")
                  (buttons (Actions (loadedState sampleProfile ""))))
    by (cbn; auto).
  split; [exact Hin |].
  destruct (X10_loaded_markup_buttons sampleWorld sampleProfile "" initialConfig)
    as (_ & _ & _ & _ & _ & _ & Hlink).
  exact (Hlink "/emergency/abc123" Hin).
Defined.

(** ** Running the effect again *)

Lemma settle_quiescent (w : World) (c : Config) :
  pending c = [] -> settle w c = c.
Proof. destruct c as [st l ps]. cbn. now intros ->. Qed.

(** With a session, a run of the effect from a configuration that awaits
    nothing is the query, its continuation, and what that leaves pending. *)
Lemma effectRun_signed_in (w : World) (u : Auth.User) (c : Config) :
  user w = Some u ->
  pending c = [] ->
  effectRun w c
  = settle w (fetchMedicalProfile_resume w (single w (Some (Auth.id u)))
                (emit (SupabaseSingle "medical_profiles" "*" "user_id"
                         (Some (Auth.id u))) c)).
Proof.
  intros Hu Hp. unfold effectRun, useEffect_body, fetchMedicalProfile_call.
  rewrite Hu. destruct c as [st l ps]. cbn in Hp. subst ps. reflexivity.
Qed.

(** X11. A run of the effect that starts when nothing is awaited, in whatever
    state an earlier run left, under the session and the answers of its own
    time: it issues one more query, for the current user's id (there is no
    cache), and ends with nothing awaited and the loading flag cleared. When
    this query fails, the profile and the QR data URL stored before stay as
    they were, one toast is added and the encoder is not called. When it
    brings a record, that record replaces the stored one without a toast; if
    its id is not empty the encoder is called once more, for its emergency
    URL, and the data URL the encoder answers with is stored. *)
Theorem X11_effect_rerun_refetches (w : World) (u : Auth.User) (c : Config) :
  user w = Some u ->
  pending c = [] ->
  let c' := effectRun w c in
  pending c' = []
  /\ loading (state c') = false
  /\ queries (log c')
     = (queries (log c)
        ++ [SupabaseSingle "medical_profiles" "*" "user_id" (Some (Auth.id u))])%list
  /\ (fetchFails (single w (Some (Auth.id u))) = true ->
      medicalProfile (state c') = medicalProfile (state c)
      /\ qrCodeDataUrl (state c') = qrCodeDataUrl (state c)
      /\ toasts (log c') = (toasts (log c) ++ [fetchToast])%list
      /\ encoderCalls (log c') = encoderCalls (log c))
  /\ (forall (resp : QueryResponse) (d : MedicalProfile),
        single w (Some (Auth.id u)) = Fulfilled resp ->
        fetchFails (Fulfilled resp) = false ->
        data resp = Some d ->
        medicalProfile (state c') = Some d
        /\ toasts (log c') = toasts (log c)
        /\ (id d <> "" ->
            encoderCalls (log c')
            = (encoderCalls (log c) ++ [(emergencyUrl w (id d), qrOptions)])%list
            /\ forall url : string,
                 toDataURL w (emergencyUrl w (id d)) qrOptions = Fulfilled url ->
                 qrCodeDataUrl (state c') = url)).
Proof.
  intros Hu Hp c'. subst c'. rewrite (effectRun_signed_in w u c Hu Hp).
  set (q := SupabaseSingle "medical_profiles" "*" "user_id" (Some (Auth.id u))).
  destruct (fetchMedicalProfile_resume_cases w (single w (Some (Auth.id u))) (emit q c))
    as [(Hf & err & ->) | (Hf & resp & Hs & ->)].
  - rewrite settle_quiescent by exact Hp.
    unfold fetchMedicalProfile_catch. cbn [log state pending setLoading emit
      medicalProfile qrCodeDataUrl loading].
    rewrite <- !app_assoc, !queries_app, !toasts_app, !encoderCalls_app.
    simpl. rewrite Hf.
    split; [exact Hp |]. split; [reflexivity |]. split; [reflexivity |].
    split; [intros _; now rewrite app_nil_r |].
    intros resp d Hs Hf'. rewrite Hs in Hf. cbn in Hf. congruence.
  - rewrite Hs in *. rewrite Hf. unfold fetchMedicalProfile_data.
    destruct (data resp) as [d |] eqn:Hd.
    + destruct (String.eqb_spec (id d) "") as [Hid | Hid].
      * unfold truthy. rewrite Hid. cbn [String.eqb negb].
        rewrite settle_quiescent by exact Hp.
        cbn [log state pending setLoading setMedicalProfile emit
             medicalProfile qrCodeDataUrl loading].
        rewrite !queries_app, !toasts_app. simpl. rewrite app_nil_r.
        split; [exact Hp |]. split; [reflexivity |]. split; [reflexivity |].
        split; [discriminate |].
        intros resp' d' [= <-] _ Hd'. rewrite Hd in Hd'. injection Hd' as <-.
        split; [reflexivity |]. split; [reflexivity |]. congruence.
      * rewrite (truthy_nonempty _ Hid).
        unfold generateQRCode_call, settle.
        cbn [log state pending setLoading setMedicalProfile emit await
             with_pending medicalProfile qrCodeDataUrl loading].
        rewrite Hp. cbn [app fold_left resume].
        unfold generateQRCode_resume.
        destruct (toDataURL w (emergencyUrl w (id d)) qrOptions) as [url | rej] eqn:Hr;
          cbn [log state pending setLoading setMedicalProfile setQrCodeDataUrl
               emit with_pending medicalProfile qrCodeDataUrl loading];
          simpl;
          rewrite ?queries_app, ?toasts_app, ?encoderCalls_app; simpl;
          rewrite ?app_nil_r;
          (split; [reflexivity |]; split; [reflexivity |];
           split; [reflexivity |]; split; [discriminate |];
           intros resp' d' [= <-] _ Hd'; rewrite Hd in Hd';
           injection Hd' as <-;
           split; [reflexivity |]; split; [reflexivity |];
           intros _; split; [reflexivity |];
           intros url' Hurl; congruence).
    + rewrite settle_quiescent by exact Hp.
      cbn [log state pending setLoading emit medicalProfile qrCodeDataUrl loading].
      rewrite !queries_app, !toasts_app. simpl. rewrite app_nil_r.
      split; [exact Hp |]. split; [reflexivity |]. split; [reflexivity |].
      split; [discriminate |].
      intros resp' d' [= <-] _ Hd'. congruence.
Qed.

Lemma X11_effect_rerun_sample :
  (user serverDownWorld = Some sampleUser
   /\ pending (mount sampleWorld) = []
   /\ fetchFails (single serverDownWorld (Some (Auth.id sampleUser))) = true)
  /\ medicalProfile (state (effectRun serverDownWorld (mount sampleWorld)))
     = Some sampleProfile
  /\ toasts (log (effectRun serverDownWorld (mount sampleWorld))) = [fetchToast]
  /\ length (queries (log (effectRun serverDownWorld (mount sampleWorld)))) = 2.
Proof.
  split; [repeat split |].
  destruct (X11_effect_rerun_refetches serverDownWorld sampleUser (mount sampleWorld)
              eq_refl eq_refl) as (_ & _ & Hq & Hfail & _).
  destruct (Hfail eq_refl) as (Hmp & _ & Ht & _).
  split; [now rewrite Hmp |]. split; [now rewrite Ht | now rewrite Hq].
Defined.

(** ** While loading *)

Lemma quiet_log (l : list Effect) :
  forallb quietEffect l = true -> toasts l = [] /\ encoderCalls l = [].
Proof.
  induction l as [| e l IH]; [now split |].
  cbn [forallb]. intros H. apply andb_true_iff in H. destruct H as (He & Hl).
  destruct (IH Hl) as (Ht & Hc).
  destruct e; cbn in He |- *; try discriminate He; now split.
Qed.

Lemma loadingInvariant_step (w : World) (c c' : Config) :
  loadingInvariant c -> step w c c' -> loadingInvariant c'.
Proof.
  intros Hinv Hstep Hload.
  destruct (loading (state c)) eqn:Hc.
  - destruct (Hinv Hc) as (Hst & Hp & Hl).
    destruct Hstep as [c | c before p after Hpend | c a Hin].
    + unfold useEffect_body. destruct (user w); cbn.
      * rewrite !forallb_app, Hp, Hl. now split.
      * rewrite forallb_app, Hl. now split.
    + exfalso. rewrite Hpend, forallb_app in Hp.
      apply andb_true_iff in Hp. destruct Hp as (_ & Hp). cbn in Hp.
      apply andb_true_iff in Hp. destruct Hp as (Hsingle & _).
      destruct p as [r | r | r]; try discriminate Hsingle.
      cbn in Hload. discriminate Hload.
    + exfalso. apply clickable_actions in Hin. destruct Hin as (Hfalse & _).
      congruence.
  - exfalso. destruct (step_keeps_shown w c c' Hstep) as (Hkeep & _).
    rewrite (Hkeep Hc) in Hload. discriminate Hload.
Qed.

(** X12. In every run, as long as the loading flag is set nothing has been
    stored or shown: the component state is the initial one, only queries are
    awaited, the log holds no toast and no encoder call, and the screen, the
    loading screen, offers no button. *)
Theorem X12_nothing_happens_while_loading (w : World) (c : Config) :
  reachable w c ->
  loading (state c) = true ->
  state c = initialState
  /\ forallb isAwaitSingle (pending c) = true
  /\ toasts (log c) = []
  /\ encoderCalls (log c) = []
  /\ Dashboard w (state c) = LoadingView
  /\ buttons (Dashboard w (state c)) = [].
Proof.
  intros Hr.
  assert (Hinv : loadingInvariant c).
  { apply clos_rt_rtn1 in Hr.
    induction Hr as [| c1 c2 Hstep _ IH]; [now intros _ |].
    exact (loadingInvariant_step w c1 c2 IH Hstep). }
  intros Hload.
  destruct (Hinv Hload) as (Hst & Hp & Hl).
  destruct (quiet_log _ Hl) as (Ht & He).
  rewrite Hst. repeat split; assumption.
Qed.

Lemma X12_nothing_happens_while_loading_sample :
  reachable sampleWorld (useEffect_body sampleWorld initialConfig)
  /\ loading (state (useEffect_body sampleWorld initialConfig)) = true
  /\ pending (useEffect_body sampleWorld initialConfig)
     = [AwaitSingle (Fulfilled {| data := Some sampleProfile; error := None |})]
  /\ buttons (Dashboard sampleWorld (state (useEffect_body sampleWorld initialConfig)))
     = [].
Proof.
  assert (Hr : reachable sampleWorld (useEffect_body sampleWorld initialConfig))
    by (apply rt_step; constructor).
  split; [exact Hr |]. split; [reflexivity |]. split; [reflexivity |].
  now destruct (X12_nothing_happens_while_loading sampleWorld _ Hr eq_refl)
    as (_ & _ & _ & _ & _ & Hb).
Defined.

(** ** The blood group in the overview card *)

Lemma append_empty_r (s : string) : s ++ "" = s.
Proof. induction s as [| ch s IH]; [reflexivity |]. cbn. now rewrite IH. Qed.

(** X13. In the component's own markup a blood group that is the empty string
    reads as a missing one. The overview card, which holds no element of an
    outside component, has the same text and the same buttons for
    [blood_group = ""] and [blood_group = null]: its blood-group slot is an
    empty text in one case and an empty child in the other. The QR section and
    the action bar are the same trees. What differs on the screen is only the
    record handed to [MedicalProfileSummary]. A blood group that is not empty
    is shown in the card as the label "Blood Group" followed by the value. *)
Theorem X13_empty_blood_group_reads_as_missing
    (w : World) (p : MedicalProfile) (qr : string) (l : bool) :
  let st := fun bg : option string =>
              {| medicalProfile := Some (with_blood_group bg p);
                 qrCodeDataUrl := qr; loading := l |} in
  textContent (ProfileOverview w (st (Some "")))
  = textContent (ProfileOverview w (st None))
  /\ buttons (ProfileOverview w (st (Some ""))) = buttons (ProfileOverview w (st None))
  /\ hasExternal (ProfileOverview w (st (Some ""))) = false
  /\ hasExternal (ProfileOverview w (st None)) = false
  /\ BloodGroupBlock (with_blood_group (Some "") p) = VText ""
  /\ BloodGroupBlock (with_blood_group None p) = VNull
  /\ QRSection (st (Some "")) = QRSection (st None)
  /\ Actions (st (Some "")) = Actions (st None)
  /\ (forall bg : string,
        bg <> "" ->
        textContent (BloodGroupBlock (with_blood_group (Some bg) p))
        = "Blood Group" ++ bg).
Proof.
  cbv zeta.
  unfold ProfileOverview, userEmail. cbn [medicalProfile].
  split; [destruct (user w) as [[uid [mail |]] |]; reflexivity |].
  split; [destruct (user w) as [[uid [mail |]] |]; reflexivity |].
  split; [destruct (user w) as [[uid [mail |]] |]; reflexivity |].
  split; [destruct (user w) as [[uid [mail |]] |]; reflexivity |].
  split; [reflexivity |]. split; [reflexivity |].
  split; [reflexivity |]. split; [reflexivity |].
  intros bg Hbg. unfold BloodGroupBlock. cbn [blood_group with_blood_group].
  rewrite (truthy_nonempty _ Hbg).
  cbn -[String.append]. now rewrite !append_empty_r.
Qed.

Lemma X13_blood_group_sample :
  "O+" <> ""
  /\ textContent (BloodGroupBlock (with_blood_group (Some "O+") sampleProfile))
     = "Blood GroupO+".
Proof.
  assert (Hne : "O+" <> "") by discriminate.
  split; [exact Hne |].
  destruct (X13_empty_blood_group_reads_as_missing sampleWorld sampleProfile "" false)
    as (_ & _ & _ & _ & _ & _ & _ & _ & Hshown).
  exact (Hshown "O+" Hne).
Defined.
